(** * Report builder for trademark-viability analyses (generador_pdf.py)

    A shallow embedding of the class [GeneradorPDF]: the Python values it
    receives, the string methods it calls, the four markup helpers, the HTML
    template, and the public operation [generar_reporte] with its
    [try]/[except] boundary.  The theorems at the end of the file state the
    behaviour of that code. *)

From Stdlib Require Import Ascii String DecimalString.
From Stdlib Require Import List NArith ZArith Bool Lia.
Import ListNotations.

Set Implicit Arguments.
Set Warnings "-register-all".

(** ** Code points and Python strings

    A Python [str] is a sequence of Unicode code points; [len], slicing and
    iteration all count code points.  It is modelled as a list of [N]. *)

Module Unicode.

Definition pystr := list N.

(** Bytes of a Rocq string literal. *)
Definition bytes_of (s : string) : list N :=
  map N_of_ascii (list_ascii_of_string s).

(** UTF-8 decoding of a byte sequence (the literals of this file are the
    source's literals, which are well-formed UTF-8; a truncated sequence is
    dropped). *)
Fixpoint utf8_decode (bs : list N) : list N :=
  match bs with
  | [] => []
  | b0 :: r0 =>
    if (b0 <? 128)%N then b0 :: utf8_decode r0
    else if (b0 <? 224)%N then
      match r0 with
      | b1 :: r1 => ((b0 - 192) * 64 + (b1 - 128))%N :: utf8_decode r1
      | [] => []
      end
    else if (b0 <? 240)%N then
      match r0 with
      | b1 :: b2 :: r2 =>
        ((b0 - 224) * 4096 + (b1 - 128) * 64 + (b2 - 128))%N :: utf8_decode r2
      | _ => []
      end
    else
      match r0 with
      | b1 :: b2 :: b3 :: r3 =>
        ((b0 - 240) * 262144 + (b1 - 128) * 4096 + (b2 - 128) * 64 + (b3 - 128))%N
          :: utf8_decode r3
      | _ => []
      end
  end.

(** The double quote, U+0022, and the grave accent, U+0060.  The source never
    uses a grave accent, so a literal of this file writes one wherever the
    Python literal has a double quote, and [lit] puts the double quote back. *)
Definition dquote : N := 34%N.
Definition grave : N := 96%N.

Definition lit (s : string) : pystr :=
  map (fun c => if (c =? grave)%N then dquote else c) (utf8_decode (bytes_of s)).

Definition in_ranges (rs : list (N * N)) (c : N) : bool :=
  existsb (fun r => (fst r <=? c)%N && (c <=? snd r)%N) rs.

(** Code points on which [str.isalnum] holds (alphabetic, decimal, digit or
    numeric), as inclusive ranges; Unicode 14.0, the database of CPython 3.11. *)
Definition isalnum_ranges : list (N * N) :=
  [
  (48, 57); (65, 90); (97, 122); (170, 170); (178, 179); (181, 181);
  (185, 186); (188, 190); (192, 214); (216, 246); (248, 705); (710, 721);
  (736, 740); (748, 748); (750, 750); (880, 884); (886, 887); (890, 893);
  (895, 895); (902, 902); (904, 906); (908, 908); (910, 929); (931, 1013);
  (1015, 1153); (1162, 1327); (1329, 1366); (1369, 1369); (1376, 1416); (1488, 1514);
  (1519, 1522); (1568, 1610); (1632, 1641); (1646, 1647); (1649, 1747); (1749, 1749);
  (1765, 1766); (1774, 1788); (1791, 1791); (1808, 1808); (1810, 1839); (1869, 1957);
  (1969, 1969); (1984, 2026); (2036, 2037); (2042, 2042); (2048, 2069); (2074, 2074);
  (2084, 2084); (2088, 2088); (2112, 2136); (2144, 2154); (2160, 2183); (2185, 2190);
  (2208, 2249); (2308, 2361); (2365, 2365); (2384, 2384); (2392, 2401); (2406, 2415);
  (2417, 2432); (2437, 2444); (2447, 2448); (2451, 2472); (2474, 2480); (2482, 2482);
  (2486, 2489); (2493, 2493); (2510, 2510); (2524, 2525); (2527, 2529); (2534, 2545);
  (2548, 2553); (2556, 2556); (2565, 2570); (2575, 2576); (2579, 2600); (2602, 2608);
  (2610, 2611); (2613, 2614); (2616, 2617); (2649, 2652); (2654, 2654); (2662, 2671);
  (2674, 2676); (2693, 2701); (2703, 2705); (2707, 2728); (2730, 2736); (2738, 2739);
  (2741, 2745); (2749, 2749); (2768, 2768); (2784, 2785); (2790, 2799); (2809, 2809);
  (2821, 2828); (2831, 2832); (2835, 2856); (2858, 2864); (2866, 2867); (2869, 2873);
  (2877, 2877); (2908, 2909); (2911, 2913); (2918, 2927); (2929, 2935); (2947, 2947);
  (2949, 2954); (2958, 2960); (2962, 2965); (2969, 2970); (2972, 2972); (2974, 2975);
  (2979, 2980); (2984, 2986); (2990, 3001); (3024, 3024); (3046, 3058); (3077, 3084);
  (3086, 3088); (3090, 3112); (3114, 3129); (3133, 3133); (3160, 3162); (3165, 3165);
  (3168, 3169); (3174, 3183); (3192, 3198); (3200, 3200); (3205, 3212); (3214, 3216);
  (3218, 3240); (3242, 3251); (3253, 3257); (3261, 3261); (3293, 3294); (3296, 3297);
  (3302, 3311); (3313, 3314); (3332, 3340); (3342, 3344); (3346, 3386); (3389, 3389);
  (3406, 3406); (3412, 3414); (3416, 3425); (3430, 3448); (3450, 3455); (3461, 3478);
  (3482, 3505); (3507, 3515); (3517, 3517); (3520, 3526); (3558, 3567); (3585, 3632);
  (3634, 3635); (3648, 3654); (3664, 3673); (3713, 3714); (3716, 3716); (3718, 3722);
  (3724, 3747); (3749, 3749); (3751, 3760); (3762, 3763); (3773, 3773); (3776, 3780);
  (3782, 3782); (3792, 3801); (3804, 3807); (3840, 3840); (3872, 3891); (3904, 3911);
  (3913, 3948); (3976, 3980); (4096, 4138); (4159, 4169); (4176, 4181); (4186, 4189);
  (4193, 4193); (4197, 4198); (4206, 4208); (4213, 4225); (4238, 4238); (4240, 4249);
  (4256, 4293); (4295, 4295); (4301, 4301); (4304, 4346); (4348, 4680); (4682, 4685);
  (4688, 4694); (4696, 4696); (4698, 4701); (4704, 4744); (4746, 4749); (4752, 4784);
  (4786, 4789); (4792, 4798); (4800, 4800); (4802, 4805); (4808, 4822); (4824, 4880);
  (4882, 4885); (4888, 4954); (4969, 4988); (4992, 5007); (5024, 5109); (5112, 5117);
  (5121, 5740); (5743, 5759); (5761, 5786); (5792, 5866); (5870, 5880); (5888, 5905);
  (5919, 5937); (5952, 5969); (5984, 5996); (5998, 6000); (6016, 6067); (6103, 6103);
  (6108, 6108); (6112, 6121); (6128, 6137); (6160, 6169); (6176, 6264); (6272, 6276);
  (6279, 6312); (6314, 6314); (6320, 6389); (6400, 6430); (6470, 6509); (6512, 6516);
  (6528, 6571); (6576, 6601); (6608, 6618); (6656, 6678); (6688, 6740); (6784, 6793);
  (6800, 6809); (6823, 6823); (6917, 6963); (6981, 6988); (6992, 7001); (7043, 7072);
  (7086, 7141); (7168, 7203); (7232, 7241); (7245, 7293); (7296, 7304); (7312, 7354);
  (7357, 7359); (7401, 7404); (7406, 7411); (7413, 7414); (7418, 7418); (7424, 7615);
  (7680, 7957); (7960, 7965); (7968, 8005); (8008, 8013); (8016, 8023); (8025, 8025);
  (8027, 8027); (8029, 8029); (8031, 8061); (8064, 8116); (8118, 8124); (8126, 8126);
  (8130, 8132); (8134, 8140); (8144, 8147); (8150, 8155); (8160, 8172); (8178, 8180);
  (8182, 8188); (8304, 8305); (8308, 8313); (8319, 8329); (8336, 8348); (8450, 8450);
  (8455, 8455); (8458, 8467); (8469, 8469); (8473, 8477); (8484, 8484); (8486, 8486);
  (8488, 8488); (8490, 8493); (8495, 8505); (8508, 8511); (8517, 8521); (8526, 8526);
  (8528, 8585); (9312, 9371); (9450, 9471); (10102, 10131); (11264, 11492); (11499, 11502);
  (11506, 11507); (11517, 11517); (11520, 11557); (11559, 11559); (11565, 11565); (11568, 11623);
  (11631, 11631); (11648, 11670); (11680, 11686); (11688, 11694); (11696, 11702); (11704, 11710);
  (11712, 11718); (11720, 11726); (11728, 11734); (11736, 11742); (11823, 11823); (12293, 12295);
  (12321, 12329); (12337, 12341); (12344, 12348); (12353, 12438); (12445, 12447); (12449, 12538);
  (12540, 12543); (12549, 12591); (12593, 12686); (12690, 12693); (12704, 12735); (12784, 12799);
  (12832, 12841); (12872, 12879); (12881, 12895); (12928, 12937); (12977, 12991); (13312, 19903);
  (19968, 42124); (42192, 42237); (42240, 42508); (42512, 42539); (42560, 42606); (42623, 42653);
  (42656, 42735); (42775, 42783); (42786, 42888); (42891, 42954); (42960, 42961); (42963, 42963);
  (42965, 42969); (42994, 43009); (43011, 43013); (43015, 43018); (43020, 43042); (43056, 43061);
  (43072, 43123); (43138, 43187); (43216, 43225); (43250, 43255); (43259, 43259); (43261, 43262);
  (43264, 43301); (43312, 43334); (43360, 43388); (43396, 43442); (43471, 43481); (43488, 43492);
  (43494, 43518); (43520, 43560); (43584, 43586); (43588, 43595); (43600, 43609); (43616, 43638);
  (43642, 43642); (43646, 43695); (43697, 43697); (43701, 43702); (43705, 43709); (43712, 43712);
  (43714, 43714); (43739, 43741); (43744, 43754); (43762, 43764); (43777, 43782); (43785, 43790);
  (43793, 43798); (43808, 43814); (43816, 43822); (43824, 43866); (43868, 43881); (43888, 44002);
  (44016, 44025); (44032, 55203); (55216, 55238); (55243, 55291); (63744, 64109); (64112, 64217);
  (64256, 64262); (64275, 64279); (64285, 64285); (64287, 64296); (64298, 64310); (64312, 64316);
  (64318, 64318); (64320, 64321); (64323, 64324); (64326, 64433); (64467, 64829); (64848, 64911);
  (64914, 64967); (65008, 65019); (65136, 65140); (65142, 65276); (65296, 65305); (65313, 65338);
  (65345, 65370); (65382, 65470); (65474, 65479); (65482, 65487); (65490, 65495); (65498, 65500);
  (65536, 65547); (65549, 65574); (65576, 65594); (65596, 65597); (65599, 65613); (65616, 65629);
  (65664, 65786); (65799, 65843); (65856, 65912); (65930, 65931); (66176, 66204); (66208, 66256);
  (66273, 66299); (66304, 66339); (66349, 66378); (66384, 66421); (66432, 66461); (66464, 66499);
  (66504, 66511); (66513, 66517); (66560, 66717); (66720, 66729); (66736, 66771); (66776, 66811);
  (66816, 66855); (66864, 66915); (66928, 66938); (66940, 66954); (66956, 66962); (66964, 66965);
  (66967, 66977); (66979, 66993); (66995, 67001); (67003, 67004); (67072, 67382); (67392, 67413);
  (67424, 67431); (67456, 67461); (67463, 67504); (67506, 67514); (67584, 67589); (67592, 67592);
  (67594, 67637); (67639, 67640); (67644, 67644); (67647, 67669); (67672, 67702); (67705, 67742);
  (67751, 67759); (67808, 67826); (67828, 67829); (67835, 67867); (67872, 67897); (67968, 68023);
  (68028, 68047); (68050, 68096); (68112, 68115); (68117, 68119); (68121, 68149); (68160, 68168);
  (68192, 68222); (68224, 68255); (68288, 68295); (68297, 68324); (68331, 68335); (68352, 68405);
  (68416, 68437); (68440, 68466); (68472, 68497); (68521, 68527); (68608, 68680); (68736, 68786);
  (68800, 68850); (68858, 68899); (68912, 68921); (69216, 69246); (69248, 69289); (69296, 69297);
  (69376, 69415); (69424, 69445); (69457, 69460); (69488, 69505); (69552, 69579); (69600, 69622);
  (69635, 69687); (69714, 69743); (69745, 69746); (69749, 69749); (69763, 69807); (69840, 69864);
  (69872, 69881); (69891, 69926); (69942, 69951); (69956, 69956); (69959, 69959); (69968, 70002);
  (70006, 70006); (70019, 70066); (70081, 70084); (70096, 70106); (70108, 70108); (70113, 70132);
  (70144, 70161); (70163, 70187); (70272, 70278); (70280, 70280); (70282, 70285); (70287, 70301);
  (70303, 70312); (70320, 70366); (70384, 70393); (70405, 70412); (70415, 70416); (70419, 70440);
  (70442, 70448); (70450, 70451); (70453, 70457); (70461, 70461); (70480, 70480); (70493, 70497);
  (70656, 70708); (70727, 70730); (70736, 70745); (70751, 70753); (70784, 70831); (70852, 70853);
  (70855, 70855); (70864, 70873); (71040, 71086); (71128, 71131); (71168, 71215); (71236, 71236);
  (71248, 71257); (71296, 71338); (71352, 71352); (71360, 71369); (71424, 71450); (71472, 71483);
  (71488, 71494); (71680, 71723); (71840, 71922); (71935, 71942); (71945, 71945); (71948, 71955);
  (71957, 71958); (71960, 71983); (71999, 71999); (72001, 72001); (72016, 72025); (72096, 72103);
  (72106, 72144); (72161, 72161); (72163, 72163); (72192, 72192); (72203, 72242); (72250, 72250);
  (72272, 72272); (72284, 72329); (72349, 72349); (72368, 72440); (72704, 72712); (72714, 72750);
  (72768, 72768); (72784, 72812); (72818, 72847); (72960, 72966); (72968, 72969); (72971, 73008);
  (73030, 73030); (73040, 73049); (73056, 73061); (73063, 73064); (73066, 73097); (73112, 73112);
  (73120, 73129); (73440, 73458); (73648, 73648); (73664, 73684); (73728, 74649); (74752, 74862);
  (74880, 75075); (77712, 77808); (77824, 78894); (82944, 83526); (92160, 92728); (92736, 92766);
  (92768, 92777); (92784, 92862); (92864, 92873); (92880, 92909); (92928, 92975); (92992, 92995);
  (93008, 93017); (93019, 93025); (93027, 93047); (93053, 93071); (93760, 93846); (93952, 94026);
  (94032, 94032); (94099, 94111); (94176, 94177); (94179, 94179); (94208, 100343); (100352, 101589);
  (101632, 101640); (110576, 110579); (110581, 110587); (110589, 110590); (110592, 110882); (110928, 110930);
  (110948, 110951); (110960, 111355); (113664, 113770); (113776, 113788); (113792, 113800); (113808, 113817);
  (119520, 119539); (119648, 119672); (119808, 119892); (119894, 119964); (119966, 119967); (119970, 119970);
  (119973, 119974); (119977, 119980); (119982, 119993); (119995, 119995); (119997, 120003); (120005, 120069);
  (120071, 120074); (120077, 120084); (120086, 120092); (120094, 120121); (120123, 120126); (120128, 120132);
  (120134, 120134); (120138, 120144); (120146, 120485); (120488, 120512); (120514, 120538); (120540, 120570);
  (120572, 120596); (120598, 120628); (120630, 120654); (120656, 120686); (120688, 120712); (120714, 120744);
  (120746, 120770); (120772, 120779); (120782, 120831); (122624, 122654); (123136, 123180); (123191, 123197);
  (123200, 123209); (123214, 123214); (123536, 123565); (123584, 123627); (123632, 123641); (124896, 124902);
  (124904, 124907); (124909, 124910); (124912, 124926); (124928, 125124); (125127, 125135); (125184, 125251);
  (125259, 125259); (125264, 125273); (126065, 126123); (126125, 126127); (126129, 126132); (126209, 126253);
  (126255, 126269); (126464, 126467); (126469, 126495); (126497, 126498); (126500, 126500); (126503, 126503);
  (126505, 126514); (126516, 126519); (126521, 126521); (126523, 126523); (126530, 126530); (126535, 126535);
  (126537, 126537); (126539, 126539); (126541, 126543); (126545, 126546); (126548, 126548); (126551, 126551);
  (126553, 126553); (126555, 126555); (126557, 126557); (126559, 126559); (126561, 126562); (126564, 126564);
  (126567, 126570); (126572, 126578); (126580, 126583); (126585, 126588); (126590, 126590); (126592, 126601);
  (126603, 126619); (126625, 126627); (126629, 126633); (126635, 126651); (127232, 127244); (130032, 130041);
  (131072, 173791); (173824, 177976); (177984, 178205); (178208, 183969); (183984, 191456); (194560, 195101);
  (196608, 201546)
  ]%N.

(** Code points on which [str.isspace] holds: what [str.strip()] removes. *)
Definition isspace_ranges : list (N * N) :=
  [
  (9, 13); (28, 32); (133, 133); (160, 160); (5760, 5760); (8192, 8202);
  (8232, 8233); (8239, 8239); (8287, 8287); (12288, 12288)
  ]%N.

(** [str.upper] on one code point.  A run [(lo, hi, step, delta)] maps every
    code point [lo + k * step <= hi] to itself plus [delta]. *)
Definition upper_runs : list (N * N * N * Z) :=
  [
  (97%N, 122%N, 1%N, (-32)%Z); (181%N, 181%N, 1%N, 743%Z); (224%N, 246%N, 1%N, (-32)%Z);
  (248%N, 254%N, 1%N, (-32)%Z); (255%N, 255%N, 1%N, 121%Z); (257%N, 303%N, 2%N, (-1)%Z);
  (305%N, 305%N, 1%N, (-232)%Z); (307%N, 311%N, 2%N, (-1)%Z); (314%N, 328%N, 2%N, (-1)%Z);
  (331%N, 375%N, 2%N, (-1)%Z); (378%N, 382%N, 2%N, (-1)%Z); (383%N, 383%N, 1%N, (-300)%Z);
  (384%N, 384%N, 1%N, 195%Z); (387%N, 389%N, 2%N, (-1)%Z); (392%N, 392%N, 1%N, (-1)%Z);
  (396%N, 396%N, 1%N, (-1)%Z); (402%N, 402%N, 1%N, (-1)%Z); (405%N, 405%N, 1%N, 97%Z);
  (409%N, 409%N, 1%N, (-1)%Z); (410%N, 410%N, 1%N, 163%Z); (414%N, 414%N, 1%N, 130%Z);
  (417%N, 421%N, 2%N, (-1)%Z); (424%N, 424%N, 1%N, (-1)%Z); (429%N, 429%N, 1%N, (-1)%Z);
  (432%N, 432%N, 1%N, (-1)%Z); (436%N, 438%N, 2%N, (-1)%Z); (441%N, 441%N, 1%N, (-1)%Z);
  (445%N, 445%N, 1%N, (-1)%Z); (447%N, 447%N, 1%N, 56%Z); (453%N, 453%N, 1%N, (-1)%Z);
  (454%N, 454%N, 1%N, (-2)%Z); (456%N, 456%N, 1%N, (-1)%Z); (457%N, 457%N, 1%N, (-2)%Z);
  (459%N, 459%N, 1%N, (-1)%Z); (460%N, 460%N, 1%N, (-2)%Z); (462%N, 476%N, 2%N, (-1)%Z);
  (477%N, 477%N, 1%N, (-79)%Z); (479%N, 495%N, 2%N, (-1)%Z); (498%N, 498%N, 1%N, (-1)%Z);
  (499%N, 499%N, 1%N, (-2)%Z); (501%N, 501%N, 1%N, (-1)%Z); (505%N, 543%N, 2%N, (-1)%Z);
  (547%N, 563%N, 2%N, (-1)%Z); (572%N, 572%N, 1%N, (-1)%Z); (575%N, 576%N, 1%N, 10815%Z);
  (578%N, 578%N, 1%N, (-1)%Z); (583%N, 591%N, 2%N, (-1)%Z); (592%N, 592%N, 1%N, 10783%Z);
  (593%N, 593%N, 1%N, 10780%Z); (594%N, 594%N, 1%N, 10782%Z); (595%N, 595%N, 1%N, (-210)%Z);
  (596%N, 596%N, 1%N, (-206)%Z); (598%N, 599%N, 1%N, (-205)%Z); (601%N, 601%N, 1%N, (-202)%Z);
  (603%N, 603%N, 1%N, (-203)%Z); (604%N, 604%N, 1%N, 42319%Z); (608%N, 608%N, 1%N, (-205)%Z);
  (609%N, 609%N, 1%N, 42315%Z); (611%N, 611%N, 1%N, (-207)%Z); (613%N, 613%N, 1%N, 42280%Z);
  (614%N, 614%N, 1%N, 42308%Z); (616%N, 616%N, 1%N, (-209)%Z); (617%N, 617%N, 1%N, (-211)%Z);
  (618%N, 618%N, 1%N, 42308%Z); (619%N, 619%N, 1%N, 10743%Z); (620%N, 620%N, 1%N, 42305%Z);
  (623%N, 623%N, 1%N, (-211)%Z); (625%N, 625%N, 1%N, 10749%Z); (626%N, 626%N, 1%N, (-213)%Z);
  (629%N, 629%N, 1%N, (-214)%Z); (637%N, 637%N, 1%N, 10727%Z); (640%N, 640%N, 1%N, (-218)%Z);
  (642%N, 642%N, 1%N, 42307%Z); (643%N, 643%N, 1%N, (-218)%Z); (647%N, 647%N, 1%N, 42282%Z);
  (648%N, 648%N, 1%N, (-218)%Z); (649%N, 649%N, 1%N, (-69)%Z); (650%N, 651%N, 1%N, (-217)%Z);
  (652%N, 652%N, 1%N, (-71)%Z); (658%N, 658%N, 1%N, (-219)%Z); (669%N, 669%N, 1%N, 42261%Z);
  (670%N, 670%N, 1%N, 42258%Z); (837%N, 837%N, 1%N, 84%Z); (881%N, 883%N, 2%N, (-1)%Z);
  (887%N, 887%N, 1%N, (-1)%Z); (891%N, 893%N, 1%N, 130%Z); (940%N, 940%N, 1%N, (-38)%Z);
  (941%N, 943%N, 1%N, (-37)%Z); (945%N, 961%N, 1%N, (-32)%Z); (962%N, 962%N, 1%N, (-31)%Z);
  (963%N, 971%N, 1%N, (-32)%Z); (972%N, 972%N, 1%N, (-64)%Z); (973%N, 974%N, 1%N, (-63)%Z);
  (976%N, 976%N, 1%N, (-62)%Z); (977%N, 977%N, 1%N, (-57)%Z); (981%N, 981%N, 1%N, (-47)%Z);
  (982%N, 982%N, 1%N, (-54)%Z); (983%N, 983%N, 1%N, (-8)%Z); (985%N, 1007%N, 2%N, (-1)%Z);
  (1008%N, 1008%N, 1%N, (-86)%Z); (1009%N, 1009%N, 1%N, (-80)%Z); (1010%N, 1010%N, 1%N, 7%Z);
  (1011%N, 1011%N, 1%N, (-116)%Z); (1013%N, 1013%N, 1%N, (-96)%Z); (1016%N, 1016%N, 1%N, (-1)%Z);
  (1019%N, 1019%N, 1%N, (-1)%Z); (1072%N, 1103%N, 1%N, (-32)%Z); (1104%N, 1119%N, 1%N, (-80)%Z);
  (1121%N, 1153%N, 2%N, (-1)%Z); (1163%N, 1215%N, 2%N, (-1)%Z); (1218%N, 1230%N, 2%N, (-1)%Z);
  (1231%N, 1231%N, 1%N, (-15)%Z); (1233%N, 1327%N, 2%N, (-1)%Z); (1377%N, 1414%N, 1%N, (-48)%Z);
  (4304%N, 4346%N, 1%N, 3008%Z); (4349%N, 4351%N, 1%N, 3008%Z); (5112%N, 5117%N, 1%N, (-8)%Z);
  (7296%N, 7296%N, 1%N, (-6254)%Z); (7297%N, 7297%N, 1%N, (-6253)%Z); (7298%N, 7298%N, 1%N, (-6244)%Z);
  (7299%N, 7300%N, 1%N, (-6242)%Z); (7301%N, 7301%N, 1%N, (-6243)%Z); (7302%N, 7302%N, 1%N, (-6236)%Z);
  (7303%N, 7303%N, 1%N, (-6181)%Z); (7304%N, 7304%N, 1%N, 35266%Z); (7545%N, 7545%N, 1%N, 35332%Z);
  (7549%N, 7549%N, 1%N, 3814%Z); (7566%N, 7566%N, 1%N, 35384%Z); (7681%N, 7829%N, 2%N, (-1)%Z);
  (7835%N, 7835%N, 1%N, (-59)%Z); (7841%N, 7935%N, 2%N, (-1)%Z); (7936%N, 7943%N, 1%N, 8%Z);
  (7952%N, 7957%N, 1%N, 8%Z); (7968%N, 7975%N, 1%N, 8%Z); (7984%N, 7991%N, 1%N, 8%Z);
  (8000%N, 8005%N, 1%N, 8%Z); (8017%N, 8023%N, 2%N, 8%Z); (8032%N, 8039%N, 1%N, 8%Z);
  (8048%N, 8049%N, 1%N, 74%Z); (8050%N, 8053%N, 1%N, 86%Z); (8054%N, 8055%N, 1%N, 100%Z);
  (8056%N, 8057%N, 1%N, 128%Z); (8058%N, 8059%N, 1%N, 112%Z); (8060%N, 8061%N, 1%N, 126%Z);
  (8112%N, 8113%N, 1%N, 8%Z); (8126%N, 8126%N, 1%N, (-7205)%Z); (8144%N, 8145%N, 1%N, 8%Z);
  (8160%N, 8161%N, 1%N, 8%Z); (8165%N, 8165%N, 1%N, 7%Z); (8526%N, 8526%N, 1%N, (-28)%Z);
  (8560%N, 8575%N, 1%N, (-16)%Z); (8580%N, 8580%N, 1%N, (-1)%Z); (9424%N, 9449%N, 1%N, (-26)%Z);
  (11312%N, 11359%N, 1%N, (-48)%Z); (11361%N, 11361%N, 1%N, (-1)%Z); (11365%N, 11365%N, 1%N, (-10795)%Z);
  (11366%N, 11366%N, 1%N, (-10792)%Z); (11368%N, 11372%N, 2%N, (-1)%Z); (11379%N, 11379%N, 1%N, (-1)%Z);
  (11382%N, 11382%N, 1%N, (-1)%Z); (11393%N, 11491%N, 2%N, (-1)%Z); (11500%N, 11502%N, 2%N, (-1)%Z);
  (11507%N, 11507%N, 1%N, (-1)%Z); (11520%N, 11557%N, 1%N, (-7264)%Z); (11559%N, 11559%N, 1%N, (-7264)%Z);
  (11565%N, 11565%N, 1%N, (-7264)%Z); (42561%N, 42605%N, 2%N, (-1)%Z); (42625%N, 42651%N, 2%N, (-1)%Z);
  (42787%N, 42799%N, 2%N, (-1)%Z); (42803%N, 42863%N, 2%N, (-1)%Z); (42874%N, 42876%N, 2%N, (-1)%Z);
  (42879%N, 42887%N, 2%N, (-1)%Z); (42892%N, 42892%N, 1%N, (-1)%Z); (42897%N, 42899%N, 2%N, (-1)%Z);
  (42900%N, 42900%N, 1%N, 48%Z); (42903%N, 42921%N, 2%N, (-1)%Z); (42933%N, 42947%N, 2%N, (-1)%Z);
  (42952%N, 42954%N, 2%N, (-1)%Z); (42961%N, 42961%N, 1%N, (-1)%Z); (42967%N, 42969%N, 2%N, (-1)%Z);
  (42998%N, 42998%N, 1%N, (-1)%Z); (43859%N, 43859%N, 1%N, (-928)%Z); (43888%N, 43967%N, 1%N, (-38864)%Z);
  (65345%N, 65370%N, 1%N, (-32)%Z); (66600%N, 66639%N, 1%N, (-40)%Z); (66776%N, 66811%N, 1%N, (-40)%Z);
  (66967%N, 67003%N, 2%N, (-39)%Z); (66968%N, 66977%N, 1%N, (-39)%Z); (66980%N, 66993%N, 1%N, (-39)%Z);
  (66996%N, 67001%N, 1%N, (-39)%Z); (67004%N, 67004%N, 1%N, (-39)%Z); (68800%N, 68850%N, 1%N, (-64)%Z);
  (71872%N, 71903%N, 1%N, (-32)%Z); (93792%N, 93823%N, 1%N, (-32)%Z); (125218%N, 125251%N, 1%N, (-34)%Z)
  ].

(** Code points whose upper case is more than one code point. *)
Definition upper_special : list (N * list N) :=
  [
  (223, [83; 83]); (329, [700; 78]); (496, [74; 780]);
  (912, [921; 776; 769]); (944, [933; 776; 769]); (1415, [1333; 1362]);
  (7830, [72; 817]); (7831, [84; 776]); (7832, [87; 778]);
  (7833, [89; 778]); (7834, [65; 702]); (8016, [933; 787]);
  (8018, [933; 787; 768]); (8020, [933; 787; 769]); (8022, [933; 787; 834]);
  (8064, [7944; 921]); (8065, [7945; 921]); (8066, [7946; 921]);
  (8067, [7947; 921]); (8068, [7948; 921]); (8069, [7949; 921]);
  (8070, [7950; 921]); (8071, [7951; 921]); (8072, [7944; 921]);
  (8073, [7945; 921]); (8074, [7946; 921]); (8075, [7947; 921]);
  (8076, [7948; 921]); (8077, [7949; 921]); (8078, [7950; 921]);
  (8079, [7951; 921]); (8080, [7976; 921]); (8081, [7977; 921]);
  (8082, [7978; 921]); (8083, [7979; 921]); (8084, [7980; 921]);
  (8085, [7981; 921]); (8086, [7982; 921]); (8087, [7983; 921]);
  (8088, [7976; 921]); (8089, [7977; 921]); (8090, [7978; 921]);
  (8091, [7979; 921]); (8092, [7980; 921]); (8093, [7981; 921]);
  (8094, [7982; 921]); (8095, [7983; 921]); (8096, [8040; 921]);
  (8097, [8041; 921]); (8098, [8042; 921]); (8099, [8043; 921]);
  (8100, [8044; 921]); (8101, [8045; 921]); (8102, [8046; 921]);
  (8103, [8047; 921]); (8104, [8040; 921]); (8105, [8041; 921]);
  (8106, [8042; 921]); (8107, [8043; 921]); (8108, [8044; 921]);
  (8109, [8045; 921]); (8110, [8046; 921]); (8111, [8047; 921]);
  (8114, [8122; 921]); (8115, [913; 921]); (8116, [902; 921]);
  (8118, [913; 834]); (8119, [913; 834; 921]); (8124, [913; 921]);
  (8130, [8138; 921]); (8131, [919; 921]); (8132, [905; 921]);
  (8134, [919; 834]); (8135, [919; 834; 921]); (8140, [919; 921]);
  (8146, [921; 776; 768]); (8147, [921; 776; 769]); (8150, [921; 834]);
  (8151, [921; 776; 834]); (8162, [933; 776; 768]); (8163, [933; 776; 769]);
  (8164, [929; 787]); (8166, [933; 834]); (8167, [933; 776; 834]);
  (8178, [8186; 921]); (8179, [937; 921]); (8180, [911; 921]);
  (8182, [937; 834]); (8183, [937; 834; 921]); (8188, [937; 921]);
  (64256, [70; 70]); (64257, [70; 73]); (64258, [70; 76]);
  (64259, [70; 70; 73]); (64260, [70; 70; 76]); (64261, [83; 84]);
  (64262, [83; 84]); (64275, [1348; 1350]); (64276, [1348; 1333]);
  (64277, [1348; 1339]); (64278, [1358; 1350]); (64279, [1348; 1341])
  ]%N.

Definition isalnum_char (c : N) : bool := in_ranges isalnum_ranges c.
Definition isspace_char (c : N) : bool := in_ranges isspace_ranges c.

Definition in_run (c : N) (r : N * N * N * Z) : bool :=
  let '(lo, hi, step, _) := r in
  (lo <=? c)%N && (c <=? hi)%N && ((c - lo) mod step =? 0)%N.

(** Full upper-casing of one code point: possibly several code points. *)
Definition upper_char (c : N) : pystr :=
  match find (fun e => (fst e =? c)%N) upper_special with
  | Some e => snd e
  | None =>
    match find (in_run c) upper_runs with
    | Some (_, _, _, delta) => [Z.to_N (Z.of_N c + delta)]
    | None => [c]
    end
  end.

End Unicode.

Export Unicode.
Arguments lit s%_string.

(** ** String methods used by the source *)

Definition str_eqb (s t : pystr) : bool :=
  if list_eq_dec N.eq_dec s t then true else false.

(** [s.isalnum()]: non-empty and every code point alphanumeric. *)
Definition str_isalnum (s : pystr) : bool :=
  match s with
  | [] => false
  | _ => forallb isalnum_char s
  end.

(** [s.upper()] *)
Definition str_upper (s : pystr) : pystr := flat_map upper_char s.

Fixpoint lstrip_by (p : N -> bool) (s : pystr) : pystr :=
  match s with
  | [] => []
  | c :: r => if p c then lstrip_by p r else s
  end.

Definition rstrip_by (p : N -> bool) (s : pystr) : pystr :=
  rev (lstrip_by p (rev s)).

Definition strip_by (p : N -> bool) (s : pystr) : pystr :=
  rstrip_by p (lstrip_by p s).

(** [s.strip()]: white space removed at both ends. *)
Definition str_strip (s : pystr) : pystr := strip_by isspace_char s.

(** [s.strip(chars)]: every code point of [chars] removed at both ends. *)
Definition str_strip_chars (chars s : pystr) : pystr :=
  strip_by (fun c => existsb (N.eqb c) chars) s.

(** [s.split(sep)] for a separator of one code point. *)
Fixpoint str_split (sep : N) (s : pystr) : list pystr :=
  match s with
  | [] => [[]]
  | c :: r =>
    if (c =? sep)%N then [] :: str_split sep r
    else match str_split sep r with
         | h :: t => (c :: h) :: t
         | [] => [[c]]
         end
  end.

(** [s.replace(old, new)] for [old] of one code point. *)
Definition str_replace (old : N) (new : pystr) (s : pystr) : pystr :=
  flat_map (fun c => if (c =? old)%N then new else [c]) s.

(** [s[:n]] *)
Definition str_slice_to (n : nat) (s : pystr) : pystr := firstn n s.

(** [str(n)] for an integer. *)
Definition str_of_Z (z : Z) : pystr :=
  bytes_of (NilEmpty.string_of_int (Z.to_int z)).

(** Decimal digits of [z], padded with zeros on the left to [width]: what
    [strftime] does for [%Y] (width 4) and [%m %d %H %M %S] (width 2). *)
Definition zero_padded (width : nat) (z : Z) : pystr :=
  let d := str_of_Z z in
  repeat 48%N (width - length d) ++ d.

Definition LF : N := 10%N.

(** ** Python values, exceptions, results *)

(** The values a decoded JSON document is made of.  A [dict] keeps its
    items in insertion order, with string keys. *)
Inductive pyval : Type :=
| VNone
| VBool (b : bool)
| VInt (z : Z)
| VStr (s : pystr)
| VList (l : list pyval)
| VDict (d : list (pystr * pyval)).

(** Instances of [Exception].  [OtherError] stands for whatever the
    rendering library or the file system raises. *)
Inductive exn : Type :=
| AttributeError
| TypeError
| IndexError
| OtherError (name message : pystr).

Inductive result (A : Type) : Type :=
| Ok (a : A)
| Raise (e : exn).
Arguments Ok {A} a.
Arguments Raise {A} e.

Definition rbind {A B} (c : result A) (k : A -> result B) : result B :=
  match c with
  | Ok a => k a
  | Raise e => Raise e
  end.

Declare Scope result_scope.
Delimit Scope result_scope with result.
Notation "x <- c ;; k" := (rbind c (fun x => k))
  (at level 61, c at next level, right associativity) : result_scope.
Notation "c ;; k" := (rbind c (fun _ => k))
  (at level 61, right associativity) : result_scope.

(** [for x in xs: ...] with a body that may raise, threading an accumulator. *)
Fixpoint for_each {A S} (xs : list A) (body : S -> A -> result S) (acc : S)
  : result S :=
  match xs with
  | [] => Ok acc
  | x :: r => rbind (body acc x) (for_each r body)
  end.

(** [[f(x) for x in xs]] with an [f] that may raise. *)
Fixpoint map_result {A B} (f : A -> result B) (xs : list A) : result (list B) :=
  match xs with
  | [] => Ok []
  | x :: r => rbind (f x) (fun y => rbind (map_result f r) (fun ys => Ok (y :: ys)))
  end.

Fixpoint assoc (k : pystr) (d : list (pystr * pyval)) : option pyval :=
  match d with
  | [] => None
  | (k', v) :: r => if str_eqb k k' then Some v else assoc k r
  end.

(** [d.get(key, default)]; only a [dict] has the method. *)
Definition dict_get (d : pyval) (key : pystr) (default : pyval) : result pyval :=
  match d with
  | VDict items =>
    Ok (match assoc key items with Some v => v | None => default end)
  | _ => Raise AttributeError
  end.

(** Truth value of an object, as [not x] and [if x] test it. *)
Definition truthy (v : pyval) : bool :=
  match v with
  | VNone => false
  | VBool b => b
  | VInt z => negb (z =? 0)%Z
  | VStr s => match s with [] => false | _ => true end
  | VList l => match l with [] => false | _ => true end
  | VDict d => match d with [] => false | _ => true end
  end.

(** [len(x)] *)
Definition py_len (v : pyval) : result nat :=
  match v with
  | VStr s => Ok (length s)
  | VList l => Ok (length l)
  | VDict d => Ok (length d)
  | _ => Raise TypeError
  end.

(** The items a [for] loop or a generator draws from an object: the
    code points of a string, the elements of a list, the keys of a dict. *)
Definition py_iter (v : pyval) : result (list pyval) :=
  match v with
  | VStr s => Ok (map (fun c => VStr [c]) s)
  | VList l => Ok l
  | VDict d => Ok (map (fun kv => VStr (fst kv)) d)
  | _ => Raise TypeError
  end.

(** [x[:n]]; a dict cannot be sliced. *)
Definition py_slice_to (n : nat) (v : pyval) : result pyval :=
  match v with
  | VStr s => Ok (VStr (firstn n s))
  | VList l => Ok (VList (firstn n l))
  | _ => Raise TypeError
  end.

(** [x + s] for a string [s]: only a string can be extended by a string. *)
Definition py_add_str (v : pyval) (s : pystr) : result pyval :=
  match v with
  | VStr t => Ok (VStr (t ++ s))
  | _ => Raise TypeError
  end.

(** [xs[i]] on a list, with Python's negative indices. *)
Definition list_index {A} (xs : list A) (i : Z) : result A :=
  let n := Z.of_nat (length xs) in
  let j := if (i <? 0)%Z then (i + n)%Z else i in
  if (j <? 0)%Z then Raise IndexError
  else match nth_error xs (Z.to_nat j) with
       | Some x => Ok x
       | None => Raise IndexError
       end.

Definition isinstance_str (v : pyval) : bool :=
  match v with VStr _ => true | _ => false end.

(** [datetime.now()] yields a naive timestamp. *)
Record datetime : Type := {
  year : Z; month : Z; day : Z; hour : Z; minute : Z; second : Z
}.

(** [strftime('%Y%m%d_%H%M%S')] *)
Definition strftime_Ymd_HMS (t : datetime) : pystr :=
  zero_padded 4 (year t) ++ zero_padded 2 (month t) ++ zero_padded 2 (day t)
  ++ lit "_"
  ++ zero_padded 2 (hour t) ++ zero_padded 2 (minute t) ++ zero_padded 2 (second t).

(** [os.path.join(a, b)] on POSIX. *)
Definition os_path_join (a b : pystr) : pystr :=
  match b with
  | 47%N :: _ => b
  | _ =>
    match rev a with
    | [] => b
    | 47%N :: _ => a ++ b
    | _ => a ++ lit "/" ++ b
    end
  end.


(** ** Markup templates

    The literals are the source's, with a grave accent standing for each
    double quote (see [lit]). *)

(** The f-string of [_generar_html] (lines 122-188), as a function of the text
    that fills each of its fields. *)
Definition html_template (marca fecha_analisis cliente clase viabilidad color_riesgo nivel_riesgo texto_analisis tabla_marcas lista_riesgo lista_favorables recomendaciones : pystr) : pystr :=
  lit "
<!DOCTYPE html>
<html lang=`es`>
<head>
    <meta charset=`UTF-8`>
    <title>Reporte de Análisis - "
  ++ marca
  ++ lit "</title>
</head>
<body>
    <!-- HEADER -->
    <div class=`header`>
        <div class=`logo-container`>
            <div class=`logo-text`>MARCA SEGURA</div>
        </div>
        <div class=`header-title`>
            <h1>Examen de Viabilidad aplicado a la marca<br><strong>"
  ++ marca
  ++ lit "</strong><br>ante el IMPI</h1>
        </div>
        <div class=`header-info`>
            <p><strong>Fecha:</strong> "
  ++ fecha_analisis
  ++ lit "</p>
            <p><strong>Cliente:</strong> "
  ++ cliente
  ++ lit "</p>
            <p><strong>Clase Niza:</strong> "
  ++ clase
  ++ lit "</p>
        </div>
    </div>
    
    <!-- RESUMEN EJECUTIVO -->
    <div class=`seccion`>
        <h2>Resumen Ejecutivo</h2>
        <div class=`viabilidad-container`>
            <div class=`viabilidad-box`>
                <div class=`viabilidad-label`>Porcentaje de Viabilidad</div>
                <div class=`viabilidad-valor`>"
  ++ viabilidad
  ++ lit "%</div>
            </div>
            <div class=`riesgo-box` style=`border-color: "
  ++ color_riesgo
  ++ lit ";`>
                <div class=`riesgo-label`>Nivel de Riesgo</div>
                <div class=`riesgo-valor` style=`color: "
  ++ color_riesgo
  ++ lit ";`>"
  ++ nivel_riesgo
  ++ lit "</div>
            </div>
        </div>
    </div>
    
    <!-- ANÁLISIS DETALLADO -->
    <div class=`seccion`>
        <h2>Análisis Detallado</h2>
        <div class=`texto-analisis`>
            "
  ++ texto_analisis
  ++ lit "
        </div>
    </div>
    
    <!-- MARCAS CONFLICTIVAS -->
    "
  ++ tabla_marcas
  ++ lit "
    
    <!-- FACTORES DE RIESGO -->
    "
  ++ lista_riesgo
  ++ lit "
    
    <!-- FACTORES FAVORABLES -->
    "
  ++ lista_favorables
  ++ lit "
    
    <!-- RECOMENDACIONES -->
    "
  ++ recomendaciones
  ++ lit "
    
    <!-- FOOTER -->
    <div class=`footer`>
        <p>Este reporte ha sido elaborado por MARCA SEGURA</p>
        <p>Consultores especializados en propiedad intelectual</p>
        <p>Documento confidencial - Para uso exclusivo del cliente</p>
    </div>
</body>
</html>
        ".

(** The notice [_generar_tabla_marcas] returns for no marks (lines 195-200). *)
Definition sin_marcas : pystr :=
  lit "
            <div class=`seccion`>
                <h2>Marcas Potencialmente Conflictivas</h2>
                <p class=`no-marcas`>No se identificaron marcas conflictivas significativas.</p>
            </div>
            ".

(** One table row (lines 214-223). *)
Definition fila_template (i denominacion expediente titular clase estado : pystr) : pystr :=
  lit "
            <tr>
                <td>"
  ++ i
  ++ lit "</td>
                <td><strong>"
  ++ denominacion
  ++ lit "</strong></td>
                <td>"
  ++ expediente
  ++ lit "</td>
                <td>"
  ++ titular
  ++ lit "</td>
                <td>"
  ++ clase
  ++ lit "</td>
                <td><span class=`estado-marca`>"
  ++ estado
  ++ lit "</span></td>
            </tr>
            ".

(** The section with the caption and the table (lines 225-245). *)
Definition tabla_template (cuantas filas : pystr) : pystr :=
  lit "
        <div class=`seccion`>
            <h2>Marcas Potencialmente Conflictivas</h2>
            <p class=`descripcion-tabla`>Se han identificado "
  ++ cuantas
  ++ lit " marcas registradas que podrían representar un conflicto. A continuación se muestran las más relevantes:</p>
            <table class=`tabla-marcas`>
                <thead>
                    <tr>
                        <th>#</th>
                        <th>Denominación</th>
                        <th>Expediente</th>
                        <th>Titular</th>
                        <th>Clase</th>
                        <th>Estado</th>
                    </tr>
                </thead>
                <tbody>
                    "
  ++ filas
  ++ lit "
                </tbody>
            </table>
        </div>
        ".

(** One bullet (line 257). *)
Definition item_template (color icono item : pystr) : pystr :=
  lit "<li><span class=`icono` style=`color: "
  ++ color
  ++ lit ";`>"
  ++ icono
  ++ lit "</span> "
  ++ item
  ++ lit "</li>".

(** A titled bullet list (lines 259-266). *)
Definition lista_template (titulo items_html : pystr) : pystr :=
  lit "
        <div class=`seccion`>
            <h2>"
  ++ titulo
  ++ lit "</h2>
            <ul class=`lista-items`>
                "
  ++ items_html
  ++ lit "
            </ul>
        </div>
        ".

(** One numbered recommendation (line 275). *)
Definition recomendacion_template (i rec : pystr) : pystr :=
  lit "<li><strong>"
  ++ i
  ++ lit ".</strong> "
  ++ rec
  ++ lit "</li>".

(** The recommendations block (lines 277-284). *)
Definition recomendaciones_template (items_html : pystr) : pystr :=
  lit "
        <div class=`seccion recomendaciones`>
            <h2>Recomendaciones</h2>
            <ol class=`lista-recomendaciones`>
                "
  ++ items_html
  ++ lit "
            </ol>
        </div>
        ".

(** [_generar_css]: the fixed stylesheet (lines 288-456). *)
Definition _generar_css : pystr :=
  lit "
        @page {
            size: Letter;
            margin: 2cm 1.5cm;
            
            @top-right {
                content: `Página ` counter(page) ` de ` counter(pages);
                font-size: 9pt;
                color: #6b7280;
            }
        }
        
        body {
            font-family: 'Helvetica', 'Arial', sans-serif;
            font-size: 11pt;
            line-height: 1.6;
            color: #1f2937;
        }
        
        .header {
            text-align: center;
            margin-bottom: 30px;
            padding-bottom: 20px;
            border-bottom: 3px solid #7c3aed;
        }
        
        .logo-text {
            font-size: 24pt;
            font-weight: bold;
            color: #7c3aed;
            letter-spacing: 2px;
        }
        
        .header-title h1 {
            font-size: 18pt;
            color: #1f2937;
            margin: 15px 0;
            line-height: 1.4;
        }
        
        .header-title strong {
            color: #7c3aed;
            font-size: 20pt;
        }
        
        .header-info {
            margin-top: 15px;
            font-size: 10pt;
            color: #6b7280;
        }
        
        .seccion {
            margin-bottom: 25px;
            page-break-inside: avoid;
        }
        
        h2 {
            color: #7c3aed;
            font-size: 14pt;
            margin-bottom: 15px;
            padding-bottom: 8px;
            border-bottom: 2px solid #e5e7eb;
        }
        
        .viabilidad-container {
            display: flex;
            justify-content: space-around;
            margin: 20px 0;
        }
        
        .viabilidad-box, .riesgo-box {
            text-align: center;
            padding: 20px;
            border: 3px solid #7c3aed;
            border-radius: 10px;
            width: 45%;
        }
        
        .viabilidad-valor {
            font-size: 36pt;
            font-weight: bold;
            color: #7c3aed;
        }
        
        .riesgo-valor {
            font-size: 24pt;
            font-weight: bold;
        }
        
        .texto-analisis {
            background-color: #f9fafb;
            padding: 15px;
            border-left: 4px solid #7c3aed;
            border-radius: 5px;
            font-size: 10pt;
            line-height: 1.8;
        }
        
        .tabla-marcas {
            width: 100%;
            border-collapse: collapse;
            font-size: 9pt;
        }
        
        .tabla-marcas thead {
            background-color: #7c3aed;
            color: white;
        }
        
        .tabla-marcas th {
            padding: 10px 8px;
            text-align: left;
        }
        
        .tabla-marcas td {
            padding: 8px;
            border-bottom: 1px solid #e5e7eb;
        }
        
        .tabla-marcas tbody tr:nth-child(even) {
            background-color: #f9fafb;
        }
        
        .lista-items {
            list-style: none;
            padding: 0;
        }
        
        .lista-items li {
            margin-bottom: 10px;
            padding-left: 30px;
            position: relative;
        }
        
        .lista-items .icono {
            position: absolute;
            left: 0;
            font-size: 14pt;
        }
        
        .recomendaciones {
            background-color: #fef3c7;
            padding: 20px;
            border-radius: 8px;
            border-left: 5px solid #f59e0b;
        }
        
        .lista-recomendaciones {
            padding-left: 0;
            list-style: none;
        }
        
        .lista-recomendaciones li {
            margin-bottom: 12px;
        }
        
        .lista-recomendaciones strong {
            color: #f59e0b;
        }
        
        .footer {
            margin-top: 40px;
            padding-top: 20px;
            border-top: 2px solid #e5e7eb;
            text-align: center;
            font-size: 9pt;
            color: #6b7280;
        }
        ".

(** ** File name (lines 49-54) *)

(** The test of the generator expression of line 49 on one item:
    [c.isalnum() or c in (' ', '-', '_')].  An item that is not a string has
    no [isalnum]. *)
Definition caracter_permitido (c : pyval) : result bool :=
  match c with
  | VStr s => Ok (str_isalnum s || existsb (str_eqb s) [lit " "; lit "-"; lit "_"])
  | _ => Raise AttributeError
  end.

(** [''.join(c for c in items if ...)] *)
Fixpoint join_permitidos (items : list pyval) : result pystr :=
  match items with
  | [] => Ok []
  | c :: r =>
    (keep <- caracter_permitido c ;;
     rest <- join_permitidos r ;;
     Ok (if keep then (match c with VStr s => s | _ => [] end) ++ rest else rest))%result
  end.

(** What lines 49-50 make of the value of [lead.get('marca', 'marca')]:
    [''.join(...).strip()], then [.replace(' ', '_')[:50]]. *)
Definition limpiar (marca : pyval) : result pystr :=
  (items <- py_iter marca ;;
   joined <- join_permitidos items ;;
   Ok (str_slice_to 50 (str_replace 32%N (lit "_") (str_strip joined))))%result.

(** Lines 49-50: the variable [marca_limpia]. *)
Definition marca_limpia (lead : pyval) : result pystr :=
  (marca <- dict_get lead (lit "marca") (VStr (lit "marca")) ;;
   limpiar marca)%result.

(** Line 54. *)
Definition nombre_archivo (marca_limpia timestamp : pystr) : pystr :=
  lit "reporte_" ++ marca_limpia ++ lit "_" ++ timestamp ++ lit ".pdf".

(** ** Normalising the list fields (lines 108-113) *)

(** [[f.strip(marcadores).strip() for f in texto.split('\n') if f.strip()]] *)
Definition lineas_a_items (marcadores texto : pystr) : list pystr :=
  map (fun f => str_strip (str_strip_chars marcadores f))
      (filter (fun f => truthy (VStr (str_strip f))) (str_split LF texto)).

(** [if isinstance(x, str): x = [...]] *)
Definition normalizar_lista (marcadores : pystr) (x : pyval) : pyval :=
  match x with
  | VStr texto => VList (map VStr (lineas_a_items marcadores texto))
  | _ => x
  end.

Definition marcadores_vineta : pystr := lit "• ".
Definition marcadores_numero : pystr := lit "1234567890. ".

(** ** Risk colour (lines 116-120) *)

Definition BAJO_color : pystr := lit "#10b981".
Definition MEDIO_color : pystr := lit "#f59e0b".
Definition ALTO_color : pystr := lit "#ef4444".
Definition color_desconocido : pystr := lit "#6b7280".

Definition colores : list (pystr * pystr) :=
  [ (lit "BAJO", BAJO_color); (lit "MEDIO", MEDIO_color); (lit "ALTO", ALTO_color) ].

Fixpoint lookup_str (k : pystr) (d : list (pystr * pystr)) : option pystr :=
  match d with
  | [] => None
  | (k', v) :: r => if str_eqb k k' then Some v else lookup_str k r
  end.

(** [{...}.get(nivel_riesgo.upper(), '#6b7280')]; only a string has [upper]. *)
Definition color_riesgo (nivel_riesgo : pyval) : result pystr :=
  match nivel_riesgo with
  | VStr s =>
    Ok (match lookup_str (str_upper s) colores with
        | Some c => c
        | None => color_desconocido
        end)
  | _ => Raise AttributeError
  end.

(** [analisis_principal.replace(chr(10), '<br>')] (line 164). *)
Definition saltos_a_br (analisis_principal : pyval) : result pystr :=
  match analisis_principal with
  | VStr s => Ok (str_replace LF (lit "<br>") s)
  | _ => Raise AttributeError
  end.

Definition meses : list pystr :=
  [ lit "enero"; lit "febrero"; lit "marzo"; lit "abril"; lit "mayo"; lit "junio";
    lit "julio"; lit "agosto"; lit "septiembre"; lit "octubre"; lit "noviembre";
    lit "diciembre" ].

(** The f-string of line 96. *)
Definition fecha_larga (ahora : datetime) (mes : pystr) : pystr :=
  str_of_Z (day ahora) ++ lit " de " ++ mes ++ lit " de " ++ str_of_Z (year ahora).

(** [enumerate(xs, 1)] *)
Definition enumerate1 {A} (xs : list A) : list (nat * A) :=
  combine (seq 1 (length xs)) xs.

(** [not x or len(x) == 0], the guard of the three helpers. *)
Definition sin_elementos (x : pyval) : result bool :=
  if negb (truthy x) then Ok true
  else (n <- py_len x ;; Ok (Nat.eqb n 0))%result.

(** Lines 210-212. *)
Definition truncar_titular (titular : pyval) : result pyval :=
  (n <- py_len titular ;;
   if Nat.ltb 40 n
   then (t <- py_slice_to 40 titular ;; py_add_str t (lit "..."))
   else Ok titular)%result.

(** ** The object: what [__init__] stores (lines 28-29) *)

Record GeneradorPDF : Type := {
  pdf_folder : pystr;
  logo_path : option pystr
}.

(** ** Text search, for statements about the rendered markup *)

Fixpoint starts_with (p s : pystr) : bool :=
  match p, s with
  | [], _ => true
  | _ :: _, [] => false
  | a :: p', b :: s' => (a =? b)%N && starts_with p' s'
  end.

Fixpoint contains (p s : pystr) : bool :=
  starts_with p s ||
  match s with
  | [] => false
  | _ :: s' => contains p s'
  end.

(** Number of positions of [s] at which [p] occurs. *)
Fixpoint occurrences (p s : pystr) : nat :=
  (if starts_with p s then 1 else 0) +
  match s with
  | [] => 0
  | _ :: s' => occurrences p s'
  end.

(** The value a field takes: the one the dict holds, else the default. *)
Definition campo (items : list (pystr * pyval)) (key : pystr) (default : pyval) : pyval :=
  match assoc key items with
  | Some v => v
  | None => default
  end.

(** Upper case of the letters a-z only: the two spellings of a level, as the
    sentences about risk levels compare them. *)
Definition ascii_upper_char (c : N) : N :=
  if (97 <=? c)%N && (c <=? 122)%N then (c - 32)%N else c.

Definition ascii_upper (s : pystr) : pystr := map ascii_upper_char s.

(** What may appear in a file-name stem. *)
Definition permitido (c : N) : Prop :=
  isalnum_char c = true \/ c = 45%N \/ c = 95%N.


(** What the generator of line 49 may keep: the above, and the space that
    line 50 then replaces. *)
Definition antes_de_reemplazar (c : N) : Prop :=
  isalnum_char c = true \/ c = 32%N \/ c = 45%N \/ c = 95%N.

(** *** The records of the data model

    A field may be absent; a field that is present holds what the data
    model says it holds. *)

Definition campo_ok (ok : pyval -> bool) (items : list (pystr * pyval)) (key : pystr)
  : bool :=
  match assoc key items with
  | None => true
  | Some v => ok v
  end.


(** A conflicting mark: a dict whose holder, if any, is a string. *)
Definition marca_ok (m : pyval) : bool :=
  match m with
  | VDict d => campo_ok isinstance_str d (lit "titular")
  | _ => false
  end.

(** A sequence of strings, or one string with line breaks. *)
Definition lista_o_texto (v : pyval) : bool :=
  match v with
  | VStr _ | VList _ => true
  | _ => false
  end.

Definition lista_de_marcas (v : pyval) : bool :=
  match v with
  | VList l => forallb marca_ok l
  | _ => false
  end.

Definition analisis_ok (analisis : list (pystr * pyval)) : bool :=
  campo_ok isinstance_str analisis (lit "nivel_riesgo")
  && campo_ok isinstance_str analisis (lit "analisis_principal")
  && campo_ok lista_o_texto analisis (lit "factores_riesgo")
  && campo_ok lista_o_texto analisis (lit "factores_favorables")
  && campo_ok lista_o_texto analisis (lit "recomendaciones")
  && campo_ok lista_de_marcas analisis (lit "marcas_conflictivas").

(** [datetime] keeps the month between 1 and 12. *)
Definition mes_valido (t : datetime) : bool :=
  (1 <=? month t)%Z && (month t <=? 12)%Z.

(** *** The end-to-end example of the specification *)

Definition lead_cafe_sol : pyval :=
  VDict [ (lit "marca", VStr (lit "Café Sol!"));
          (lit "nombre", VStr (lit "Juan Pérez"));
          (lit "clase_sugerida", VStr (lit "30")) ].

Definition analisis_cafe_sol : pyval :=
  VDict [ (lit "porcentaje_viabilidad", VInt 72);
          (lit "nivel_riesgo", VStr (lit "ALTO"));
          (lit "marcas_conflictivas", VList []) ].

(** *** A concrete environment and concrete records

    A clock stopped on 31 January 2024 at 09:30:05, a rendering call that
    succeeds, and a [str] of containers that is empty; a builder that writes
    to [/tmp/pdfs]; a conflicting mark whose holder has 48 characters, and a
    list of 16 such marks. *)

Definition reloj_fijo (n : nat) : datetime :=
  {| year := 2024; month := 1; day := 31; hour := 9; minute := 30; second := 5 |}.

Definition render_ok (fs : unit) (html css filepath : pystr) : unit * option exn :=
  (fs, None).

Definition repr_ninguno (v : pyval) : pystr := [].

Definition generador_ejemplo : GeneradorPDF :=
  {| pdf_folder := lit "/tmp/pdfs"; logo_path := None |}.

Definition titular_largo : pystr :=
  lit "Compañía Mexicana de Alimentos y Bebidas del Sol".

Definition marca_ejemplo : pyval :=
  VDict [ (lit "denominacion", VStr (lit "SOL")); (lit "titular", VStr titular_largo) ].

Definition dieciseis_marcas : list pyval := repeat marca_ejemplo 16.

(** *** Further vocabulary for statements about the code *)

(** Decimal digits, and the minus sign of a negative number. *)
Definition digito_o_menos (c : N) : Prop :=
  ((48 <= c)%N /\ (c <= 57)%N) \/ c = 45%N.


(** The ranges of [datetime]: [datetime.now()] in a year of four digits. *)
Definition datetime_valido (t : datetime) : bool :=
  (1000 <=? year t)%Z && (year t <=? 9999)%Z
  && (1 <=? month t)%Z && (month t <=? 12)%Z
  && (1 <=? day t)%Z && (day t <=? 31)%Z
  && (0 <=? hour t)%Z && (hour t <=? 23)%Z
  && (0 <=? minute t)%Z && (minute t <=? 59)%Z
  && (0 <=? second t)%Z && (second t <=? 59)%Z.

(** No [<] in a text: it opens no tag. *)
Definition sin_marcado (s : pystr) : bool :=
  forallb (fun c => negb (c =? 60)%N) s.



(** The holder of a conflicting mark is present and is not a string, a list
    or a dict: [len] rejects it. *)
Definition titular_sin_len (m : pyval) : bool :=
  match m with
  | VDict d =>
    match assoc (lit "titular") d with
    | Some (VNone | VBool _ | VInt _) => true
    | _ => false
    end
  | _ => false
  end.

(** An entry that the loop of [_generar_tabla_marcas] cannot render: it is
    not a dict, or [len] rejects its holder. *)
Definition marca_rechazada (m : pyval) : bool :=
  match m with
  | VDict _ => titular_sin_len m
  | _ => true
  end.

(** *** More of the concrete environment: [os.makedirs] succeeds. *)


(** A lead whose brand name holds markup, and a list with one mark whose
    holder is a null. *)
Definition lead_con_marcado : list (pystr * pyval) :=
  [ (lit "marca", VStr (lit "<b>Sol</b>")) ].

Definition marca_sin_titular : pyval := VDict [ (lit "titular", VNone) ].
(** ** The builder, over its environment *)

Section Generador.

(** [str(x)] of a list or a dict, which the model leaves to the runtime. *)
Variable repr_container : pyval -> pystr.

(** The file system as the rendering library sees it, and the call
    [HTML(string=html).write_pdf(filepath, stylesheets=[CSS(string=css)])]:
    it changes the file system and may raise. *)
Variable fs : Type.
Variable write_pdf : fs -> pystr -> pystr -> pystr -> fs * option exn.

(** The value of the n-th call of [datetime.now()]. *)
Variable clock : nat -> datetime.

(** What an f-string field [{x}] puts in the text. *)
Definition py_format (x : pyval) : pystr :=
  match x with
  | VNone => lit "None"
  | VBool true => lit "True"
  | VBool false => lit "False"
  | VInt z => str_of_Z z
  | VStr s => s
  | _ => repr_container x
  end.

Definition str_of_nat (n : nat) : pystr := str_of_Z (Z.of_nat n).

(** The body of the loop of [_generar_tabla_marcas] (lines 204-223). *)
Definition fila (i : nat) (marca : pyval) : result pystr :=
  (denominacion <- dict_get marca (lit "denominacion") (VStr (lit "N/A")) ;;
   expediente <- dict_get marca (lit "expediente") (VStr (lit "N/A")) ;;
   titular <- dict_get marca (lit "titular") (VStr (lit "No especificado")) ;;
   clase <- dict_get marca (lit "clase") (VStr (lit "N/A")) ;;
   estado <- dict_get marca (lit "estado") (VStr (lit "N/A")) ;;
   titular <- truncar_titular titular ;;
   Ok (fila_template (str_of_nat i) (py_format denominacion) (py_format expediente)
         (py_format titular) (py_format clase) (py_format estado)))%result.

Definition _generar_tabla_marcas (marcas : pyval) : result pystr :=
  (vacio <- sin_elementos marcas ;;
   if vacio then Ok sin_marcas
   else
     primeras <- py_slice_to 15 marcas ;;
     elems <- py_iter primeras ;;
     filas <- for_each (enumerate1 elems)
                (fun filas im => f <- fila (fst im) (snd im) ;; Ok (filas ++ f)) [] ;;
     cuantas <- py_len marcas ;;
     Ok (tabla_template (str_of_nat cuantas) filas))%result.

Definition _generar_lista (titulo : pystr) (items : pyval) (tipo : pystr)
  : result pystr :=
  (vacio <- sin_elementos items ;;
   if vacio then Ok []
   else
     let icono := if str_eqb tipo (lit "riesgo") then lit "⚠" else lit "✓" in
     let color := if str_eqb tipo (lit "riesgo") then lit "#ef4444" else lit "#10b981" in
     elems <- py_iter items ;;
     let items_html :=
       fold_left (fun html item => html ++ item_template color icono (py_format item))
                 elems [] in
     Ok (lista_template titulo items_html))%result.

Definition _generar_recomendaciones (recomendaciones : pyval) : result pystr :=
  (vacio <- sin_elementos recomendaciones ;;
   if vacio then Ok []
   else
     elems <- py_iter recomendaciones ;;
     let items_html :=
       fold_left (fun html ir =>
                    html ++ recomendacion_template (str_of_nat (fst ir)) (py_format (snd ir)))
                 (enumerate1 elems) [] in
     Ok (recomendaciones_template items_html))%result.

(** *** State: the clock, the file system, the log *)

Inductive log_record : Type :=
| LogInfo (message : pystr)
| LogError (message : pystr) (cause : exn)
| Traceback (cause : exn).

Record world : Type := {
  w_ticks : nat;
  w_fs : fs;
  w_log : list log_record
}.

Definition M (A : Type) : Type := world -> world * result A.

Definition ret {A} (a : A) : M A := fun w => (w, Ok a).

Definition bind {A B} (c : M A) (k : A -> M B) : M B :=
  fun w =>
    match c w with
    | (w', Ok a) => k a w'
    | (w', Raise e) => (w', Raise e)
    end.

Definition lift {A} (r : result A) : M A := fun w => (w, r).

(** [try: body except Exception as e: handler(e)] *)
Definition try_except {A} (body : M A) (handler : exn -> M A) : M A :=
  fun w =>
    match body w with
    | (w', Ok a) => (w', Ok a)
    | (w', Raise e) => handler e w'
    end.

Definition datetime_now : M datetime :=
  fun w => ({| w_ticks := S (w_ticks w); w_fs := w_fs w; w_log := w_log w |},
            Ok (clock (w_ticks w))).

Definition log (r : log_record) : M unit :=
  fun w => ({| w_ticks := w_ticks w; w_fs := w_fs w; w_log := w_log w ++ [r] |}, Ok tt).

Definition HTML_write_pdf (html css filepath : pystr) : M unit :=
  fun w =>
    let (fs', failure) := write_pdf (w_fs w) html css filepath in
    ({| w_ticks := w_ticks w; w_fs := fs'; w_log := w_log w |},
     match failure with
     | None => Ok tt
     | Some e => Raise e
     end).

Declare Scope io_scope.
Delimit Scope io_scope with io.
Notation "x <- c ;; k" := (bind c (fun x => k))
  (at level 61, c at next level, right associativity) : io_scope.
Notation "c ;; k" := (bind c (fun _ => k))
  (at level 61, right associativity) : io_scope.

Definition _generar_html (lead analisis : pyval) : M pystr :=
  (marca <- lift (dict_get lead (lit "marca") (VStr (lit "N/A"))) ;;
   cliente <- lift (dict_get lead (lit "nombre") (VStr (lit "Cliente"))) ;;
   clase <- lift (dict_get lead (lit "clase_sugerida") (VStr (lit "N/A"))) ;;
   ahora <- datetime_now ;;
   mes <- lift (list_index meses (month ahora - 1)) ;;
   let fecha_analisis := fecha_larga ahora mes in
   viabilidad <- lift (dict_get analisis (lit "porcentaje_viabilidad") (VInt 0)) ;;
   nivel_riesgo <- lift (dict_get analisis (lit "nivel_riesgo") (VStr (lit "MEDIO"))) ;;
   analisis_principal <- lift (dict_get analisis (lit "analisis_principal") (VStr [])) ;;
   factores_riesgo <- lift (dict_get analisis (lit "factores_riesgo") (VList [])) ;;
   factores_favorables <- lift (dict_get analisis (lit "factores_favorables") (VList [])) ;;
   recomendaciones <- lift (dict_get analisis (lit "recomendaciones") (VList [])) ;;
   marcas_conflictivas <- lift (dict_get analisis (lit "marcas_conflictivas") (VList [])) ;;
   let factores_riesgo := normalizar_lista marcadores_vineta factores_riesgo in
   let factores_favorables := normalizar_lista marcadores_vineta factores_favorables in
   let recomendaciones := normalizar_lista marcadores_numero recomendaciones in
   color <- lift (color_riesgo nivel_riesgo) ;;
   texto <- lift (saltos_a_br analisis_principal) ;;
   tabla <- lift (_generar_tabla_marcas marcas_conflictivas) ;;
   lista_riesgo <- lift (_generar_lista (lit "Factores de Riesgo") factores_riesgo (lit "riesgo")) ;;
   lista_favorables <-
     lift (_generar_lista (lit "Factores Favorables") factores_favorables (lit "favorable")) ;;
   recs <- lift (_generar_recomendaciones recomendaciones) ;;
   ret (html_template (py_format marca) fecha_analisis (py_format cliente) (py_format clase)
          (py_format viabilidad) color (py_format nivel_riesgo) texto tabla
          lista_riesgo lista_favorables recs))%io.

(** The [try] block of [generar_reporte] (lines 48-76). *)
Definition generar_reporte_try (self : GeneradorPDF) (lead analisis : pyval) : M pyval :=
  (limpia <- lift (marca_limpia lead) ;;
   ahora <- datetime_now ;;
   let timestamp := strftime_Ymd_HMS ahora in
   let filename := nombre_archivo limpia timestamp in
   let filepath := os_path_join (pdf_folder self) filename in
   log (LogInfo (lit "[PDF] Generando: " ++ filename)) ;;
   html_content <- _generar_html lead analisis ;;
   let css_content := _generar_css in
   HTML_write_pdf html_content css_content filepath ;;
   log (LogInfo (lit "✅ PDF generado: " ++ filename)) ;;
   ret (VStr filepath))%io.

(** The [except Exception as e] block (lines 78-82). *)
Definition generar_reporte_except (e : exn) : M pyval :=
  (log (LogError (lit "Error generando PDF: ") e) ;;
   log (Traceback e) ;;
   ret VNone)%io.

Definition generar_reporte (self : GeneradorPDF) (lead analisis : pyval) : M pyval :=
  try_except (generar_reporte_try self lead analisis) generar_reporte_except.

(** The page [_generar_html] composes from two dicts when the clock reads
    [ahora] (lemma [generar_html_dicts] below). *)
Definition componer_html (ahora : datetime) (lead an : list (pystr * pyval))
  : result pystr :=
  (mes <- list_index meses (month ahora - 1) ;;
   color <- color_riesgo (campo an (lit "nivel_riesgo") (VStr (lit "MEDIO"))) ;;
   texto <- saltos_a_br (campo an (lit "analisis_principal") (VStr [])) ;;
   tabla <- _generar_tabla_marcas (campo an (lit "marcas_conflictivas") (VList [])) ;;
   lista_riesgo <-
     _generar_lista (lit "Factores de Riesgo")
       (normalizar_lista marcadores_vineta (campo an (lit "factores_riesgo") (VList [])))
       (lit "riesgo") ;;
   lista_favorables <-
     _generar_lista (lit "Factores Favorables")
       (normalizar_lista marcadores_vineta (campo an (lit "factores_favorables") (VList [])))
       (lit "favorable") ;;
   recs <-
     _generar_recomendaciones
       (normalizar_lista marcadores_numero (campo an (lit "recomendaciones") (VList []))) ;;
   Ok (html_template
         (py_format (campo lead (lit "marca") (VStr (lit "N/A"))))
         (fecha_larga ahora mes)
         (py_format (campo lead (lit "nombre") (VStr (lit "Cliente"))))
         (py_format (campo lead (lit "clase_sugerida") (VStr (lit "N/A"))))
         (py_format (campo an (lit "porcentaje_viabilidad") (VInt 0)))
         color
         (py_format (campo an (lit "nivel_riesgo") (VStr (lit "MEDIO"))))
         texto tabla lista_riesgo lista_favorables recs))%result.

(** The state after the calls of [generar_reporte] that precede or follow
    the rendering: two clock readings and the lines logged. *)
Definition despues (w : world) (fs' : fs) (lines : list log_record) : world :=
  {| w_ticks := S (S (w_ticks w)); w_fs := fs'; w_log := w_log w ++ lines |}.


(** *** The constructor, and further definitions for the statements *)

(** [os.makedirs(pdf_folder, exist_ok=True)]: it changes the file system and
    may raise. *)
Variable makedirs : fs -> pystr -> fs * option exn.


(** The state the [except] block leaves. *)
Definition tras_el_error (w : world) (e : exn) : world :=
  {| w_ticks := w_ticks w; w_fs := w_fs w;
     w_log := (w_log w ++ [LogError (lit "Error generando PDF: ") e]) ++ [Traceback e] |}.

(** The state in which [generar_reporte] calls [_generar_html]: the clock
    read once, the first line logged. *)
Definition antes_de_componer (w : world) (filename : pystr) : world :=
  {| w_ticks := S (w_ticks w); w_fs := w_fs w;
     w_log := w_log w ++ [LogInfo (lit "[PDF] Generando: " ++ filename)] |}.

(** The five cells of a row that come from the mark, as they are written. *)
Definition celdas (d : list (pystr * pyval)) : list pystr :=
  [ py_format (campo d (lit "denominacion") (VStr (lit "N/A")));
    py_format (campo d (lit "expediente") (VStr (lit "N/A")));
    py_format (campo d (lit "titular") (VStr (lit "No especificado")));
    py_format (campo d (lit "clase") (VStr (lit "N/A")));
    py_format (campo d (lit "estado") (VStr (lit "N/A"))) ].

(** A mark of the data model whose cells hold no [<]. *)
Definition marca_sin_marcado (m : pyval) : bool :=
  marca_ok m &&
  match m with
  | VDict d => forallb sin_marcado (celdas d)
  | _ => false
  end.
(** * Properties *)

(** Literals are compared by evaluation ([vm_compute]), never unfolded by
    unification. *)
Opaque lit.

(** ** Sanity checks of the string layer *)

Example lit_utf8 : lit "Café `✅`" = [67; 97; 102; 233; 32; 34; 9989; 34]%N.
Proof. reflexivity. Qed.

Example upper_examples :
  str_upper (lit "bajo") = lit "BAJO" /\ str_upper (lit "straße") = lit "STRASSE"
  /\ str_upper (lit "medıo") = lit "MEDIO" /\ str_isalnum (lit "é") = true.
Proof. repeat split; reflexivity. Qed.

Example split_examples :
  str_split LF (lit "a
b

c") = [lit "a"; lit "b"; lit ""; lit "c"]
  /\ str_of_Z (-72) = lit "-72" /\ str_of_Z 0 = lit "0"
  /\ zero_padded 2 7 = lit "07"
  /\ os_path_join (lit "/tmp/pdfs") (lit "a.pdf") = lit "/tmp/pdfs/a.pdf".
Proof. repeat split; reflexivity. Qed.

(** ** Lemmas on the string methods *)

Lemma Ok_inj (A : Type) (a b : A) : Ok a = Ok b -> a = b.
Proof. intros H. injection H as H. exact H. Qed.

Lemma Forall_lstrip_by (P : N -> Prop) p s :
  Forall P s -> Forall P (lstrip_by p s).
Proof.
  induction 1 as [|c r Hc Hr IH]; simpl; [constructor|].
  destruct (p c); [exact IH | constructor; assumption].
Qed.

Lemma Forall_strip_by (P : N -> Prop) p s :
  Forall P s -> Forall P (strip_by p s).
Proof.
  intros H. unfold strip_by, rstrip_by.
  apply Forall_rev, Forall_lstrip_by, Forall_rev, Forall_lstrip_by, H.
Qed.

Lemma Forall_firstn_of (A : Type) (P : A -> Prop) n (l : list A) :
  Forall P l -> Forall P (firstn n l).
Proof.
  intros H. revert n. induction H as [|x r Hx Hr IH]; intros [|n]; simpl;
    constructor; auto.
Qed.

Lemma Forall_flat_map (P Q : N -> Prop) (f : N -> pystr) s :
  (forall c, P c -> Forall Q (f c)) -> Forall P s -> Forall Q (flat_map f s).
Proof.
  intros Hf. induction 1 as [|c r Hc Hr IH]; simpl; [constructor|].
  apply Forall_app; split; [apply Hf, Hc | exact IH].
Qed.

Lemma lit_space : lit " " = [32%N].
Proof. vm_compute. reflexivity. Qed.

Lemma lit_hyphen : lit "-" = [45%N].
Proof. vm_compute. reflexivity. Qed.

Lemma lit_underscore : lit "_" = [95%N].
Proof. vm_compute. reflexivity. Qed.

Lemma caracter_permitido_str s :
  caracter_permitido (VStr s) = Ok true -> Forall antes_de_reemplazar s.
Proof.
  unfold caracter_permitido. intros H. injection H as H.
  apply orb_true_iff in H as [H | H].
  - destruct s as [|c r]; [discriminate|].
    unfold str_isalnum in H. rewrite forallb_forall in H.
    apply Forall_forall. intros x Hx. left. apply H, Hx.
  - cbn [existsb] in H. rewrite lit_space, lit_hyphen, lit_underscore in H.
    unfold str_eqb in H.
    repeat match type of H with
    | context [list_eq_dec N.eq_dec s ?t] =>
        destruct (list_eq_dec N.eq_dec s t) as [->|_];
        [ apply Forall_cons; [|apply Forall_nil]; unfold antes_de_reemplazar;
          first [ right; left; reflexivity
                | right; right; left; reflexivity
                | right; right; right; reflexivity ] | ]
    end.
    discriminate.
Qed.

Lemma join_permitidos_chars items joined :
  join_permitidos items = Ok joined -> Forall antes_de_reemplazar joined.
Proof.
  revert joined. induction items as [|c r IH]; simpl; intros joined H.
  - injection H as <-. constructor.
  - destruct (caracter_permitido c) as [keep|e] eqn:Hc; simpl in H; [|discriminate].
    destruct (join_permitidos r) as [rest|e] eqn:Hr; simpl in H; [|discriminate].
    injection H as <-. specialize (IH rest eq_refl).
    destruct keep; [|exact IH].
    destruct c; try discriminate.
    apply Forall_app. split; [apply caracter_permitido_str, Hc | exact IH].
Qed.

Lemma limpiar_permitido marca stem :
  limpiar marca = Ok stem -> Forall permitido stem /\ length stem <= 50.
Proof.
  unfold limpiar. intros H.
  destruct (py_iter marca) as [items|e]; cbn [rbind] in H; [|discriminate].
  destruct (join_permitidos items) as [joined|e] eqn:Hj; cbn [rbind] in H; [|discriminate].
  apply Ok_inj in H. subst stem. split.
  - unfold str_slice_to. apply Forall_firstn_of.
    apply Forall_flat_map with (P := antes_de_reemplazar).
    + intros c Hc. cbv beta. destruct (N.eqb_spec c 32) as [->|Hne].
      * rewrite lit_underscore. apply Forall_cons; [|apply Forall_nil].
        right. right. reflexivity.
      * apply Forall_cons; [|apply Forall_nil]. unfold permitido.
        destruct Hc as [?|[?|[?|?]]]; [tauto | contradiction | tauto | tauto].
    + apply Forall_strip_by, join_permitidos_chars with (items := items), Hj.
  - unfold str_slice_to. rewrite length_firstn. lia.
Qed.

Lemma dict_get_dict items key default :
  dict_get (VDict items) key default = Ok (campo items key default).
Proof. reflexivity. Qed.

Lemma join_permitidos_str s :
  exists joined, join_permitidos (map (fun c => VStr [c]) s) = Ok joined.
Proof.
  induction s as [|c r [joined IH]].
  - exists []. reflexivity.
  - cbn [map join_permitidos caracter_permitido rbind]. rewrite IH.
    cbn [rbind]. eexists. reflexivity.
Qed.

Lemma limpiar_str s : exists stem, limpiar (VStr s) = Ok stem.
Proof.
  unfold limpiar. cbn [py_iter rbind].
  destruct (join_permitidos_str s) as [joined ->]. cbn [rbind].
  eexists. reflexivity.
Qed.

Lemma limpiar_default : limpiar (VStr (lit "marca")) = Ok (lit "marca").
Proof. vm_compute. reflexivity. Qed.

(** ** The file-name stem *)

(** C2, as amended: whenever lines 49-50 yield a stem, it holds only
    alphanumeric characters, hyphens and underscores and has at most 50
    characters; a brand name that is a string always yields one; and the
    generic label [marca] is the stem of a lead that has no brand-name field. *)
Theorem marca_limpia_stem (lead : list (pystr * pyval)) :
  match marca_limpia (VDict lead) with
  | Ok stem => Forall permitido stem /\ length stem <= 50
  | Raise _ => True
  end
  /\
  match assoc (lit "marca") lead with
  | None => marca_limpia (VDict lead) = Ok (lit "marca")
  | Some (VStr s) => exists stem, marca_limpia (VDict lead) = Ok stem
  | Some _ => True
  end.
Proof.
  unfold marca_limpia. rewrite dict_get_dict. cbn [rbind]. unfold campo. split.
  - destruct (limpiar _) as [stem|e] eqn:H; [|exact I].
    apply limpiar_permitido with (1 := H).
  - destruct (assoc (lit "marca") lead) as [[| | |s| |]|]; try exact I.
    + apply limpiar_str.
    + apply limpiar_default.
Qed.

(** ** Loops *)

Lemma for_each_append (A : Type) (f : A -> result pystr) xs acc :
  for_each xs (fun filas x => rbind (f x) (fun r => Ok (filas ++ r))) acc
  = rbind (map_result f xs) (fun rs => Ok (acc ++ concat rs)).
Proof.
  revert acc. induction xs as [|x r IH]; intros acc; cbn [for_each map_result rbind concat].
  - rewrite app_nil_r. reflexivity.
  - destruct (f x) as [y|e]; cbn [rbind]; [|reflexivity].
    rewrite IH. destruct (map_result f r) as [ys|e]; cbn [rbind concat]; [|reflexivity].
    rewrite app_assoc. reflexivity.
Qed.

Lemma map_result_Forall2 (A B : Type) (f : A -> result B) xs ys :
  map_result f xs = Ok ys <-> Forall2 (fun x y => f x = Ok y) xs ys.
Proof.
  revert ys. induction xs as [|x r IH]; intros ys; cbn [map_result]; split; intros H.
  - apply Ok_inj in H. subst ys. constructor.
  - inversion H. reflexivity.
  - destruct (f x) as [y|e] eqn:Hx; cbn [rbind] in H; [|discriminate].
    destruct (map_result f r) as [ys'|e] eqn:Hr; cbn [rbind] in H; [|discriminate].
    apply Ok_inj in H. subst ys. constructor; [exact Hx | apply IH; reflexivity].
  - inversion H as [|x' y xs' ys' Hx Hr]; subst.
    rewrite Hx. cbn [rbind]. apply IH in Hr. rewrite Hr. reflexivity.
Qed.

Lemma map_result_total (A B : Type) (f : A -> result B) xs :
  Forall (fun x => exists y, f x = Ok y) xs -> exists ys, map_result f xs = Ok ys.
Proof.
  induction 1 as [|x r [y Hx] Hr [ys IH]]; cbn [map_result].
  - exists []. reflexivity.
  - rewrite Hx, IH. cbn [rbind]. eexists. reflexivity.
Qed.

Lemma fold_left_append (A : Type) (f : A -> pystr) xs acc :
  fold_left (fun html x => html ++ f x) xs acc = acc ++ concat (map f xs).
Proof.
  revert acc. induction xs as [|x r IH]; intros acc; cbn [fold_left map concat].
  - rewrite app_nil_r. reflexivity.
  - rewrite IH, app_assoc. reflexivity.
Qed.

Lemma length_enumerate1 (A : Type) (xs : list A) :
  length (enumerate1 xs) = length xs.
Proof.
  unfold enumerate1. rewrite length_combine, length_seq. apply Nat.min_id.
Qed.

Lemma In_enumerate1 (A : Type) (xs : list A) i x :
  In (i, x) (enumerate1 xs) -> In x xs.
Proof. unfold enumerate1. apply in_combine_r. Qed.

(** ** The table of conflicting marks *)

Lemma truncar_titular_str h :
  truncar_titular (VStr h)
  = Ok (VStr (if Nat.ltb 40 (length h) then firstn 40 h ++ lit "..." else h)).
Proof.
  unfold truncar_titular. cbn [py_len rbind].
  destruct (Nat.ltb 40 (length h)); reflexivity.
Qed.

Lemma fila_dict i d h :
  campo d (lit "titular") (VStr (lit "No especificado")) = VStr h ->
  fila i (VDict d)
  = Ok (fila_template (str_of_nat i)
          (py_format (campo d (lit "denominacion") (VStr (lit "N/A"))))
          (py_format (campo d (lit "expediente") (VStr (lit "N/A"))))
          (if Nat.ltb 40 (length h) then firstn 40 h ++ lit "..." else h)
          (py_format (campo d (lit "clase") (VStr (lit "N/A"))))
          (py_format (campo d (lit "estado") (VStr (lit "N/A"))))).
Proof.
  intros Hh. unfold fila. rewrite !dict_get_dict. cbn [rbind].
  rewrite Hh, truncar_titular_str. cbn [rbind py_format]. reflexivity.
Qed.

Lemma marca_ok_titular d :
  campo_ok isinstance_str d (lit "titular") = true ->
  exists h, campo d (lit "titular") (VStr (lit "No especificado")) = VStr h.
Proof.
  unfold campo_ok, campo. destruct (assoc (lit "titular") d) as [v|].
  - destruct v; try discriminate. intros _. eexists. reflexivity.
  - intros _. eexists. reflexivity.
Qed.

Lemma fila_total i m : marca_ok m = true -> exists r, fila i m = Ok r.
Proof.
  destruct m; try discriminate. cbn [marca_ok]. intros H.
  destruct (marca_ok_titular _ H) as [h Hh].
  rewrite (fila_dict i _ Hh). eexists. reflexivity.
Qed.

Lemma sin_elementos_lista l :
  l <> [] -> sin_elementos (VList l) = Ok false.
Proof.
  destruct l as [|x r]; [congruence|]. intros _. reflexivity.
Qed.

(** The table of a non-empty list: the caption counts the whole list, the
    body is made of the rows of the first 15 entries. *)
Lemma tabla_de_lista l :
  l <> [] -> forallb marca_ok (firstn 15 l) = true ->
  exists filas,
    Forall2 (fun im r => fila (fst im) (snd im) = Ok r) (enumerate1 (firstn 15 l)) filas
    /\ _generar_tabla_marcas (VList l)
       = Ok (tabla_template (str_of_nat (length l)) (concat filas)).
Proof.
  intros Hne Hok.
  destruct (@map_result_total _ _ (fun im => fila (fst im) (snd im))
              (enumerate1 (firstn 15 l))) as [filas Hf].
  { apply Forall_forall. intros [i m] Hin. apply fila_total. cbn [snd].
    rewrite forallb_forall in Hok. apply Hok. apply In_enumerate1 with (1 := Hin). }
  exists filas. split; [apply map_result_Forall2, Hf|].
  unfold _generar_tabla_marcas. rewrite (sin_elementos_lista Hne).
  cbn [rbind py_slice_to py_iter py_len].
  rewrite for_each_append, Hf. cbn [rbind app]. reflexivity.
Qed.

Lemma filas_length l filas :
  Forall2 (fun im r => fila (fst im) (snd im) = Ok r) (enumerate1 (firstn 15 l)) filas ->
  length filas = Nat.min 15 (length l).
Proof.
  intros H. apply Forall2_length in H.
  rewrite <- H, length_enumerate1, length_firstn. reflexivity.
Qed.




(** ** The bullet lists and the recommendations *)

Lemma generar_lista_lista titulo l tipo :
  exists r, _generar_lista titulo (VList l) tipo = Ok r.
Proof.
  unfold _generar_lista. destruct l as [|x r].
  - exists []. reflexivity.
  - rewrite sin_elementos_lista by discriminate. cbn [rbind py_iter].
    eexists. reflexivity.
Qed.

Lemma generar_recomendaciones_lista l :
  exists r, _generar_recomendaciones (VList l) = Ok r.
Proof.
  unfold _generar_recomendaciones. destruct l as [|x r].
  - exists []. reflexivity.
  - rewrite sin_elementos_lista by discriminate. cbn [rbind py_iter].
    eexists. reflexivity.
Qed.

Lemma normalizar_lista_ok marcadores v :
  lista_o_texto v = true -> exists l, normalizar_lista marcadores v = VList l.
Proof.
  destruct v; try discriminate; intros _; eexists; reflexivity.
Qed.

(** ** The page *)

Lemma campo_str items key s0 :
  campo_ok isinstance_str items key = true ->
  exists s, campo items key (VStr s0) = VStr s.
Proof.
  unfold campo_ok, campo. destruct (assoc key items) as [v|].
  - destruct v; try discriminate. intros _. eexists. reflexivity.
  - intros _. eexists. reflexivity.
Qed.

Lemma mes_del_anio t :
  mes_valido t = true -> exists mes, list_index meses (month t - 1) = Ok mes.
Proof.
  unfold mes_valido. intros H. apply andb_true_iff in H as [H1 H2].
  apply Z.leb_le in H1, H2.
  assert (Hm : (month t = 1 \/ month t = 2 \/ month t = 3 \/ month t = 4
                \/ month t = 5 \/ month t = 6 \/ month t = 7 \/ month t = 8
                \/ month t = 9 \/ month t = 10 \/ month t = 11 \/ month t = 12)%Z)
    by lia.
  repeat (destruct Hm as [Hm|Hm]); rewrite Hm; eexists; reflexivity.
Qed.

Lemma tabla_total v :
  lista_de_marcas v = true -> exists tabla, _generar_tabla_marcas v = Ok tabla.
Proof.
  destruct v as [| | | |l|]; try discriminate. cbn [lista_de_marcas]. intros Hok.
  destruct l as [|m r] eqn:El.
  - exists sin_marcas. reflexivity.
  - rewrite <- El in *.
    destruct (@tabla_de_lista l) as (filas & _ & Htab).
    + subst l. discriminate.
    + rewrite forallb_forall in *. intros x Hx. apply Hok.
      rewrite <- (firstn_skipn 15 l). apply in_or_app. left. exact Hx.
    + eexists. exact Htab.
Qed.

(** [_generar_html] on two dicts: it reads the clock once, and the page is
    the template filled with the fields or their defaults. *)
Lemma generar_html_dicts lead an w :
  _generar_html (VDict lead) (VDict an) w
  = ({| w_ticks := S (w_ticks w); w_fs := w_fs w; w_log := w_log w |},
     componer_html (clock (w_ticks w)) lead an).
Proof.
  unfold _generar_html, componer_html.
  cbv beta iota zeta delta [bind lift ret datetime_now dict_get].
  destruct (list_index meses _) as [mes|e]; cbn [rbind]; [|reflexivity].
  destruct (color_riesgo _) as [color|e]; cbn [rbind]; [|reflexivity].
  destruct (saltos_a_br _) as [texto|e]; cbn [rbind]; [|reflexivity].
  destruct (_generar_tabla_marcas _) as [tabla|e]; cbn [rbind]; [|reflexivity].
  destruct (_generar_lista (lit "Factores de Riesgo") _ _) as [lr|e]; cbn [rbind];
    [|reflexivity].
  destruct (_generar_lista (lit "Factores Favorables") _ _) as [lf|e]; cbn [rbind];
    [|reflexivity].
  destruct (_generar_recomendaciones _) as [recs|e]; cbn [rbind]; reflexivity.
Qed.

(** Under the data model and a valid month, every part of the page is
    composed without an exception. *)
Lemma componer_html_ok ahora lead an :
  analisis_ok an = true -> mes_valido ahora = true ->
  exists mes color texto tabla lista_riesgo lista_favorables recs,
    list_index meses (month ahora - 1) = Ok mes
    /\ color_riesgo (campo an (lit "nivel_riesgo") (VStr (lit "MEDIO"))) = Ok color
    /\ saltos_a_br (campo an (lit "analisis_principal") (VStr [])) = Ok texto
    /\ _generar_tabla_marcas (campo an (lit "marcas_conflictivas") (VList [])) = Ok tabla
    /\ _generar_lista (lit "Factores de Riesgo")
         (normalizar_lista marcadores_vineta (campo an (lit "factores_riesgo") (VList [])))
         (lit "riesgo") = Ok lista_riesgo
    /\ _generar_lista (lit "Factores Favorables")
         (normalizar_lista marcadores_vineta
            (campo an (lit "factores_favorables") (VList [])))
         (lit "favorable") = Ok lista_favorables
    /\ _generar_recomendaciones
         (normalizar_lista marcadores_numero (campo an (lit "recomendaciones") (VList [])))
       = Ok recs
    /\ componer_html ahora lead an
       = Ok (html_template
               (py_format (campo lead (lit "marca") (VStr (lit "N/A"))))
               (fecha_larga ahora mes)
               (py_format (campo lead (lit "nombre") (VStr (lit "Cliente"))))
               (py_format (campo lead (lit "clase_sugerida") (VStr (lit "N/A"))))
               (py_format (campo an (lit "porcentaje_viabilidad") (VInt 0)))
               color
               (py_format (campo an (lit "nivel_riesgo") (VStr (lit "MEDIO"))))
               texto tabla lista_riesgo lista_favorables recs).
Proof.
  unfold analisis_ok. intros Han Hmes.
  repeat (apply andb_true_iff in Han as [Han ?]).
  destruct (mes_del_anio _ Hmes) as [mes Emes].
  destruct (@campo_str an (lit "nivel_riesgo") (lit "MEDIO")) as [nivel Enivel];
    [assumption|].
  destruct (@campo_str an (lit "analisis_principal") []) as [texto0 Etexto];
    [assumption|].
  assert (Htab : exists tabla,
            _generar_tabla_marcas (campo an (lit "marcas_conflictivas") (VList []))
            = Ok tabla).
  { apply tabla_total. unfold campo, campo_ok in *.
    destruct (assoc (lit "marcas_conflictivas") an); [assumption | reflexivity]. }
  destruct Htab as [tabla Etabla].
  assert (Hl : forall key, campo_ok lista_o_texto an key = true ->
                 lista_o_texto (campo an key (VList [])) = true).
  { intros key. unfold campo, campo_ok. destruct (assoc key an); [tauto | reflexivity]. }
  destruct (@normalizar_lista_ok marcadores_vineta
              (campo an (lit "factores_riesgo") (VList []))) as [l1 E1];
    [apply Hl; assumption|].
  destruct (@normalizar_lista_ok marcadores_vineta
              (campo an (lit "factores_favorables") (VList []))) as [l2 E2];
    [apply Hl; assumption|].
  destruct (@normalizar_lista_ok marcadores_numero
              (campo an (lit "recomendaciones") (VList []))) as [l3 E3];
    [apply Hl; assumption|].
  destruct (generar_lista_lista (lit "Factores de Riesgo") l1 (lit "riesgo")) as [lr Elr].
  destruct (generar_lista_lista (lit "Factores Favorables") l2 (lit "favorable"))
    as [lf Elf].
  destruct (generar_recomendaciones_lista l3) as [recs Erecs].
  exists mes.
  exists (match lookup_str (str_upper nivel) colores with
          | Some c => c
          | None => color_desconocido
          end).
  exists (str_replace LF (lit "<br>") texto0), tabla, lr, lf, recs.
  unfold componer_html.
  rewrite Emes, Enivel, Etexto, Etabla, E1, E2, E3, Elr, Elf, Erecs.
  cbn [rbind color_riesgo saltos_a_br py_format]. repeat split; reflexivity.
Qed.

(** ** The public operation *)

Lemma bind_Ok (A B : Type) (c : M A) (k : A -> M B) w w' b :
  bind c k w = (w', Ok b) -> exists w1 a, c w = (w1, Ok a) /\ k a w1 = (w', Ok b).
Proof.
  unfold bind. destruct (c w) as [w1 [a|e]]; intros H.
  - exists w1, a. split; [reflexivity | exact H].
  - discriminate.
Qed.

Lemma generar_reporte_try_path self lead analisis w w' v :
  generar_reporte_try self lead analisis w = (w', Ok v) ->
  exists filepath, v = VStr filepath.
Proof.
  unfold generar_reporte_try. intros H.
  apply bind_Ok in H as (w1 & limpia & _ & H).
  apply bind_Ok in H as (w2 & ahora & _ & H).
  apply bind_Ok in H as (w3 & u1 & _ & H).
  apply bind_Ok in H as (w4 & html & _ & H).
  apply bind_Ok in H as (w5 & u2 & _ & H).
  apply bind_Ok in H as (w6 & u3 & _ & H).
  unfold ret in H. eexists. symmetry.
  apply (f_equal snd) in H. cbn [snd] in H. apply Ok_inj in H. exact H.
Qed.

(** C1: [generar_reporte] never raises.  When the [try] block returns, its
    value, a path, is returned; when it raises, whatever the exception and
    wherever it arose, the cause is logged and [None] is returned. *)
Theorem generar_reporte_never_raises
  (self : GeneradorPDF) (lead analisis : pyval) (w : world) :
  (exists w' v,
     generar_reporte self lead analisis w = (w', Ok v)
     /\ (v = VNone \/ exists filepath, v = VStr filepath))
  /\
  match generar_reporte_try self lead analisis w with
  | (w1, Ok v) =>
      generar_reporte self lead analisis w = (w1, Ok v)
      /\ exists filepath, v = VStr filepath
  | (w1, Raise e) =>
      generar_reporte self lead analisis w
      = ({| w_ticks := w_ticks w1; w_fs := w_fs w1;
            w_log := (w_log w1 ++ [LogError (lit "Error generando PDF: ") e])
                       ++ [Traceback e] |},
         Ok VNone)
  end.
Proof.
  unfold generar_reporte, try_except.
  destruct (generar_reporte_try self lead analisis w) as [w1 [v|e]] eqn:Htry.
  - destruct (generar_reporte_try_path _ _ _ _ Htry) as [filepath ->].
    split; [exists w1, (VStr filepath) | ]; (split; [reflexivity|]); eauto.
  - split; [|reflexivity].
    eexists. exists VNone. split; [reflexivity | left; reflexivity].
Qed.

Lemma generar_reporte_dicts self lead an w stem html :
  marca_limpia (VDict lead) = Ok stem ->
  componer_html (clock (S (w_ticks w))) lead an = Ok html ->
  generar_reporte self (VDict lead) (VDict an) w
  = let filename := nombre_archivo stem (strftime_Ymd_HMS (clock (w_ticks w))) in
    let filepath := os_path_join (pdf_folder self) filename in
    match write_pdf (w_fs w) html _generar_css filepath with
    | (fs', None) =>
        (despues w fs' [LogInfo (lit "[PDF] Generando: " ++ filename);
                        LogInfo (lit "✅ PDF generado: " ++ filename)],
         Ok (VStr filepath))
    | (fs', Some e) =>
        (despues w fs' [LogInfo (lit "[PDF] Generando: " ++ filename);
                        LogError (lit "Error generando PDF: ") e; Traceback e],
         Ok VNone)
    end.
Proof.
  intros Hstem Hhtml.
  unfold generar_reporte, try_except, generar_reporte_try.
  cbv beta iota zeta delta [bind lift ret datetime_now log HTML_write_pdf].
  rewrite Hstem. cbv beta iota zeta.
  rewrite generar_html_dicts. cbn [w_ticks w_fs w_log].
  rewrite Hhtml.
  destruct (write_pdf _ _ _ _) as [fs' [e|]]; unfold despues, generar_reporte_except;
    cbv beta iota zeta delta [bind log ret]; cbn [w_ticks w_fs w_log];
    rewrite <- ?app_assoc; reflexivity.
Qed.

(** ** The risk colour *)

Lemma upper_char_ascii_table :
  forallb (fun c => str_eqb (upper_char c) [ascii_upper_char c])
          (map N.of_nat (seq 0 128)) = true.
Proof. vm_compute. reflexivity. Qed.

Lemma upper_char_ascii c : (c < 128)%N -> upper_char c = [ascii_upper_char c].
Proof.
  intros Hc. pose proof upper_char_ascii_table as H.
  rewrite forallb_forall in H. specialize (H c).
  unfold str_eqb in H.
  destruct (list_eq_dec N.eq_dec (upper_char c) [ascii_upper_char c]) as [E|_].
  - exact E.
  - assert (Hin : In c (map N.of_nat (seq 0 128))).
    { apply in_map_iff. exists (N.to_nat c). split; [apply N2Nat.id|].
      apply in_seq. lia. }
    specialize (H Hin). discriminate.
Qed.

Lemma ascii_upper_char_small c : (ascii_upper_char c < 128)%N -> (c < 128)%N.
Proof.
  unfold ascii_upper_char.
  destruct ((97 <=? c)%N && (c <=? 122)%N) eqn:E; [|tauto].
  apply andb_true_iff in E as [_ E]. apply N.leb_le in E. lia.
Qed.

Lemma str_upper_ascii s :
  Forall (fun c => (c < 128)%N) s -> str_upper s = ascii_upper s.
Proof.
  induction 1 as [|c r Hc Hr IH]; [reflexivity|].
  unfold str_upper, ascii_upper in *. cbn [flat_map map].
  rewrite IH, upper_char_ascii by exact Hc. reflexivity.
Qed.

Lemma ascii_upper_small s :
  Forall (fun c => (c < 128)%N) (ascii_upper s) -> Forall (fun c => (c < 128)%N) s.
Proof.
  induction s as [|c r IH]; intros H; [constructor|].
  unfold ascii_upper in *. cbn [map] in H. inversion H; subst.
  constructor; [apply ascii_upper_char_small; assumption | apply IH; assumption].
Qed.

Lemma str_upper_of_level s level :
  ascii_upper s = level -> forallb (fun c => (c <? 128)%N) level = true ->
  str_upper s = level.
Proof.
  intros E Hl. rewrite <- E. apply str_upper_ascii, ascii_upper_small.
  rewrite E. apply Forall_forall. intros c Hc.
  rewrite forallb_forall in Hl. apply N.ltb_lt, Hl, Hc.
Qed.

Lemma color_riesgo_upper s :
  color_riesgo (VStr s)
  = Ok (match lookup_str (str_upper s) colores with
        | Some c => c
        | None => color_desconocido
        end).
Proof. reflexivity. Qed.

Lemma lookup_str_colores u :
  u <> lit "BAJO" -> u <> lit "MEDIO" -> u <> lit "ALTO" ->
  lookup_str u colores = None.
Proof.
  intros H1 H2 H3. unfold colores. cbn [lookup_str]. unfold str_eqb.
  destruct (list_eq_dec N.eq_dec u (lit "BAJO")); [contradiction|].
  destruct (list_eq_dec N.eq_dec u (lit "MEDIO")); [contradiction|].
  destruct (list_eq_dec N.eq_dec u (lit "ALTO")); [contradiction|].
  reflexivity.
Qed.

(** C6: a risk level that is [BAJO] up to the case of its letters is
    rendered in the LOW colour, [MEDIO] in the MEDIUM colour and [ALTO] in the
    HIGH colour; a string whose upper case is none of the three names is
    rendered in the neutral colour, and so is every string of ASCII characters
    that is none of them up to case. *)
Theorem color_por_nivel (s : pystr) :
  (ascii_upper s = lit "BAJO" -> color_riesgo (VStr s) = Ok BAJO_color)
  /\ (ascii_upper s = lit "MEDIO" -> color_riesgo (VStr s) = Ok MEDIO_color)
  /\ (ascii_upper s = lit "ALTO" -> color_riesgo (VStr s) = Ok ALTO_color)
  /\ (str_upper s <> lit "BAJO" -> str_upper s <> lit "MEDIO" ->
      str_upper s <> lit "ALTO" -> color_riesgo (VStr s) = Ok color_desconocido)
  /\ (Forall (fun c => (c < 128)%N) s ->
      ascii_upper s <> lit "BAJO" -> ascii_upper s <> lit "MEDIO" ->
      ascii_upper s <> lit "ALTO" -> color_riesgo (VStr s) = Ok color_desconocido).
Proof.
  rewrite color_riesgo_upper.
  repeat split.
  - intros E. apply str_upper_of_level in E; [|vm_compute; reflexivity].
    rewrite E. vm_compute. reflexivity.
  - intros E. apply str_upper_of_level in E; [|vm_compute; reflexivity].
    rewrite E. vm_compute. reflexivity.
  - intros E. apply str_upper_of_level in E; [|vm_compute; reflexivity].
    rewrite E. vm_compute. reflexivity.
  - intros H1 H2 H3. rewrite lookup_str_colores by assumption. reflexivity.
  - intros Hs H1 H2 H3. rewrite (str_upper_ascii Hs).
    rewrite lookup_str_colores by assumption. reflexivity.
Qed.

(** ** Absent fields, empty sections, the worked example *)



(** C7, at a failing input: the markers are stripped at both ends of a line,
    so a recommendation that ends with a number or a full stop loses them. *)
Theorem recomendacion_pierde_su_final :
  normalizar_lista marcadores_numero
    (VStr (lit "1. Registrar la marca en la clase 30.
2. Vigilar marcas similares"))
  = VList [ VStr (lit "Registrar la marca en la clase");
            VStr (lit "Vigilar marcas similares") ]
  /\ normalizar_lista marcadores_vineta
       (VStr (lit "• Marca similar en la clase 30
• Titular activo •"))
     = VList [ VStr (lit "Marca similar en la clase 30");
               VStr (lit "Titular activo") ].
Proof. split; vm_compute; reflexivity. Qed.

Lemma generar_lista_vacia titulo tipo : _generar_lista titulo (VList []) tipo = Ok [].
Proof. reflexivity. Qed.

Lemma generar_recomendaciones_vacia : _generar_recomendaciones (VList []) = Ok [].
Proof. reflexivity. Qed.

(** C8: an empty list of recommendations, of risk factors or of favourable
    factors produces the empty text, and in the page the place of that
    section is left empty: no heading and no block. *)
Theorem secciones_vacias_omitidas :
  (forall titulo tipo, _generar_lista titulo (VList []) tipo = Ok [])
  /\ _generar_recomendaciones (VList []) = Ok []
  /\ forall (lead an : list (pystr * pyval)) (w : world),
       analisis_ok an = true -> mes_valido (clock (w_ticks w)) = true ->
       exists fecha color texto tabla lista_riesgo lista_favorables recs,
         _generar_html (VDict lead) (VDict an) w
         = ({| w_ticks := S (w_ticks w); w_fs := w_fs w; w_log := w_log w |},
            Ok (html_template
                  (py_format (campo lead (lit "marca") (VStr (lit "N/A"))))
                  fecha
                  (py_format (campo lead (lit "nombre") (VStr (lit "Cliente"))))
                  (py_format (campo lead (lit "clase_sugerida") (VStr (lit "N/A"))))
                  (py_format (campo an (lit "porcentaje_viabilidad") (VInt 0)))
                  color
                  (py_format (campo an (lit "nivel_riesgo") (VStr (lit "MEDIO"))))
                  texto tabla lista_riesgo lista_favorables recs))
         /\ (campo an (lit "factores_riesgo") (VList []) = VList [] ->
             lista_riesgo = [])
         /\ (campo an (lit "factores_favorables") (VList []) = VList [] ->
             lista_favorables = [])
         /\ (campo an (lit "recomendaciones") (VList []) = VList [] -> recs = []).
Proof.
  split; [exact generar_lista_vacia|]. split; [exact generar_recomendaciones_vacia|].
  intros lead an w Han Hmes.
  destruct (@componer_html_ok _ lead an Han Hmes)
    as (mes & color & texto & tabla & lr & lf & recs
        & Emes & Ecolor & Etexto & Etabla & Elr & Elf & Erecs & Hhtml).
  exists (fecha_larga (clock (w_ticks w)) mes), color, texto, tabla, lr, lf, recs.
  split; [rewrite generar_html_dicts, Hhtml; reflexivity|].
  repeat split; intros E.
  - rewrite E in Elr. cbn [normalizar_lista] in Elr.
    rewrite generar_lista_vacia in Elr. apply Ok_inj in Elr. auto.
  - rewrite E in Elf. cbn [normalizar_lista] in Elf.
    rewrite generar_lista_vacia in Elf. apply Ok_inj in Elf. auto.
  - rewrite E in Erecs. cbn [normalizar_lista] in Erecs.
    rewrite generar_recomendaciones_vacia in Erecs. apply Ok_inj in Erecs. auto.
Qed.

Lemma componer_html_cafe_sol ahora mes :
  list_index meses (month ahora - 1) = Ok mes ->
  componer_html ahora
    [ (lit "marca", VStr (lit "Café Sol!")); (lit "nombre", VStr (lit "Juan Pérez"));
      (lit "clase_sugerida", VStr (lit "30")) ]
    [ (lit "porcentaje_viabilidad", VInt 72); (lit "nivel_riesgo", VStr (lit "ALTO"));
      (lit "marcas_conflictivas", VList []) ]
  = Ok (html_template (lit "Café Sol!") (fecha_larga ahora mes) (lit "Juan Pérez")
          (lit "30") (lit "72") ALTO_color (lit "ALTO") [] sin_marcas [] [] []).
Proof.
  intros Emes. unfold componer_html. rewrite Emes.
  vm_compute. reflexivity.
Qed.

Lemma nombre_archivo_cafe_sol timestamp :
  nombre_archivo (lit "Café_Sol") timestamp
  = lit "reporte_Café_Sol_" ++ timestamp ++ lit ".pdf".
Proof. vm_compute. reflexivity. Qed.

Lemma marca_limpia_cafe_sol : marca_limpia lead_cafe_sol = Ok (lit "Café_Sol").
Proof. vm_compute. reflexivity. Qed.

(** C9, as amended: for the lead [Café Sol!] of Juan Pérez, class 30, and
    the analysis with viability 72, level [ALTO] and no conflicting mark, the
    file is named [reporte_Café_Sol_<timestamp>.pdf] (the [!] is dropped, the
    [é] is kept), the risk level is rendered in the HIGH colour, and the
    place of the table holds the notice that no conflicting mark was found. *)
Theorem cafe_sol_report (self : GeneradorPDF) (w : world) :
  mes_valido (clock (S (w_ticks w))) = true ->
  exists mes,
    list_index meses (month (clock (S (w_ticks w))) - 1) = Ok mes
    /\ let filename :=
         lit "reporte_Café_Sol_" ++ strftime_Ymd_HMS (clock (w_ticks w)) ++ lit ".pdf" in
       let filepath := os_path_join (pdf_folder self) filename in
       let html :=
         html_template (lit "Café Sol!") (fecha_larga (clock (S (w_ticks w))) mes)
           (lit "Juan Pérez") (lit "30") (lit "72") ALTO_color (lit "ALTO") []
           sin_marcas [] [] [] in
       match write_pdf (w_fs w) html _generar_css filepath with
       | (fs', None) =>
           generar_reporte self lead_cafe_sol analisis_cafe_sol w
           = (despues w fs' [LogInfo (lit "[PDF] Generando: " ++ filename);
                             LogInfo (lit "✅ PDF generado: " ++ filename)],
              Ok (VStr filepath))
       | (fs', Some e) =>
           generar_reporte self lead_cafe_sol analisis_cafe_sol w
           = (despues w fs' [LogInfo (lit "[PDF] Generando: " ++ filename);
                             LogError (lit "Error generando PDF: ") e; Traceback e],
              Ok VNone)
       end.
Proof.
  intros Hmes. destruct (mes_del_anio _ Hmes) as [mes Emes].
  exists mes. split; [exact Emes|]. cbv zeta.
  unfold lead_cafe_sol, analisis_cafe_sol.
  rewrite (@generar_reporte_dicts self _ _ w _ _ marca_limpia_cafe_sol
             (@componer_html_cafe_sol _ mes Emes)).
  cbv zeta.
  rewrite nombre_archivo_cafe_sol.
  destruct (write_pdf _ _ _ _) as [fs' [e|]]; reflexivity.
Qed.

(** * Further properties of the code *)

(** ** Numbers as text *)

Lemma bytes_of_String a s : bytes_of (String a s) = N_of_ascii a :: bytes_of s.
Proof. reflexivity. Qed.

Lemma string_of_uint_digits d :
  Forall digito_o_menos (bytes_of (NilEmpty.string_of_uint d)).
Proof.
  induction d; cbn [NilEmpty.string_of_uint]; [constructor|..];
    rewrite bytes_of_String; (constructor; [|assumption]);
    left; cbv; split; discriminate.
Qed.

Lemma str_of_Z_digits z : Forall digito_o_menos (str_of_Z z).
Proof.
  unfold str_of_Z. destruct (Z.to_int z) as [d|d]; cbn [NilEmpty.string_of_int].
  - apply string_of_uint_digits.
  - rewrite bytes_of_String. constructor; [right; reflexivity|].
    apply string_of_uint_digits.
Qed.










(** ** The public operation, step by step *)

(** [generar_reporte] on any two values: the three places where it can fail
    and the one where it succeeds. *)
Lemma generar_reporte_cases self lead an w :
  generar_reporte self lead an w
  = match marca_limpia lead with
    | Raise e => (tras_el_error w e, Ok VNone)
    | Ok stem =>
      let filename := nombre_archivo stem (strftime_Ymd_HMS (clock (w_ticks w))) in
      let filepath := os_path_join (pdf_folder self) filename in
      match _generar_html lead an (antes_de_componer w filename) with
      | (w2, Raise e) => (tras_el_error w2 e, Ok VNone)
      | (w2, Ok html) =>
        match write_pdf (w_fs w2) html _generar_css filepath with
        | (fs', None) =>
            ({| w_ticks := w_ticks w2; w_fs := fs';
                w_log := w_log w2 ++ [LogInfo (lit "✅ PDF generado: " ++ filename)] |},
             Ok (VStr filepath))
        | (fs', Some e) =>
            (tras_el_error {| w_ticks := w_ticks w2; w_fs := fs'; w_log := w_log w2 |} e,
             Ok VNone)
        end
      end
    end.
Proof.
  unfold generar_reporte, try_except, generar_reporte_try.
  cbv beta iota zeta delta [bind lift ret datetime_now log HTML_write_pdf].
  destruct (marca_limpia lead) as [stem|e]; [|reflexivity].
  cbv beta iota zeta. unfold antes_de_componer. cbn [w_ticks w_fs w_log].
  destruct (_generar_html lead an _) as [w2 [html|e]]; [|reflexivity].
  cbn [w_ticks w_fs w_log].
  destruct (write_pdf _ _ _ _) as [fs' [e|]]; reflexivity.
Qed.




(** ** Length of the file name *)

Lemma zero_padded_2_table :
  forallb (fun n => Nat.eqb (length (zero_padded 2 (Z.of_nat n))) 2) (seq 0 100) = true.
Proof. vm_compute. reflexivity. Qed.

Lemma zero_padded_4_table :
  forallb (fun n => Nat.eqb (length (zero_padded 4 (Z.of_nat n))) 4) (seq 0 (Z.to_nat 10000)) = true.
Proof. vm_compute. reflexivity. Qed.

Lemma zero_padded_2_length z :
  (0 <= z <= 99)%Z -> length (zero_padded 2 z) = 2.
Proof.
  intros Hz. pose proof zero_padded_2_table as H. rewrite forallb_forall in H.
  specialize (H (Z.to_nat z)). rewrite Z2Nat.id in H by lia.
  apply Nat.eqb_eq, H, in_seq. lia.
Qed.

Lemma zero_padded_4_length z :
  (0 <= z <= 9999)%Z -> length (zero_padded 4 z) = 4.
Proof.
  intros Hz. pose proof zero_padded_4_table as H. rewrite forallb_forall in H.
  specialize (H (Z.to_nat z)). rewrite Z2Nat.id in H by lia.
  apply Nat.eqb_eq, H, in_seq. lia.
Qed.

Lemma lit_lengths :
  length (lit "reporte_") = 8 /\ length (lit "_") = 1 /\ length (lit ".pdf") = 4.
Proof. repeat split; vm_compute; reflexivity. Qed.

Lemma strftime_length t :
  datetime_valido t = true -> length (strftime_Ymd_HMS t) = 15.
Proof.
  unfold datetime_valido. intros H.
  repeat (apply andb_true_iff in H as [H ?]).
  repeat match goal with
         | Hb : (_ <=? _)%Z = true |- _ => apply Z.leb_le in Hb
         end.
  unfold strftime_Ymd_HMS. rewrite !length_app.
  destruct lit_lengths as (_ & -> & _).
  rewrite zero_padded_4_length by lia.
  rewrite !zero_padded_2_length by lia. reflexivity.
Qed.

(** X2: when the clock reads a date of [datetime] in a year of four digits,
    the timestamp has 15 characters and the file name of a report that is
    written has between 28 and 78 characters: the 50 of a stem at most, and
    28 of fixed text and timestamp. *)
Theorem longitud_del_nombre self lead an w w' path :
  datetime_valido (clock (w_ticks w)) = true ->
  generar_reporte self lead an w = (w', Ok (VStr path)) ->
  exists stem,
    marca_limpia lead = Ok stem
    /\ path = os_path_join (pdf_folder self)
                (nombre_archivo stem (strftime_Ymd_HMS (clock (w_ticks w))))
    /\ length (strftime_Ymd_HMS (clock (w_ticks w))) = 15
    /\ length (nombre_archivo stem (strftime_Ymd_HMS (clock (w_ticks w))))
       = 28 + length stem
    /\ length stem <= 50.
Proof.
  intros Hclock H. rewrite generar_reporte_cases in H.
  destruct (marca_limpia lead) as [stem|e] eqn:Hstem; [|discriminate].
  cbv zeta in H.
  destruct (_generar_html lead an _) as [w2 [html|e]]; [|discriminate].
  destruct (write_pdf _ _ _ _) as [fs' [e|]]; [discriminate|].
  apply (f_equal snd) in H. cbn [snd] in H. apply Ok_inj in H.
  exists stem. split; [reflexivity|]. split; [congruence|].
  pose proof (strftime_length _ Hclock) as Hts. split; [exact Hts|].
  split.
  - unfold nombre_archivo. rewrite !length_app, Hts.
    destruct lit_lengths as (-> & -> & ->). lia.
  - unfold marca_limpia in Hstem.
    destruct (dict_get lead _ _) as [marca|e]; cbn [rbind] in Hstem; [|discriminate].
    apply (limpiar_permitido _ Hstem).
Qed.

(** ** What the file system sees *)



(** ** Fields that are present with the wrong type *)

Lemma componer_html_inv ahora lead an html :
  componer_html ahora lead an = Ok html ->
  exists mes color texto tabla lista_riesgo lista_favorables recs,
    list_index meses (month ahora - 1) = Ok mes
    /\ color_riesgo (campo an (lit "nivel_riesgo") (VStr (lit "MEDIO"))) = Ok color
    /\ saltos_a_br (campo an (lit "analisis_principal") (VStr [])) = Ok texto
    /\ _generar_tabla_marcas (campo an (lit "marcas_conflictivas") (VList [])) = Ok tabla
    /\ _generar_lista (lit "Factores de Riesgo")
         (normalizar_lista marcadores_vineta (campo an (lit "factores_riesgo") (VList [])))
         (lit "riesgo") = Ok lista_riesgo
    /\ _generar_lista (lit "Factores Favorables")
         (normalizar_lista marcadores_vineta
            (campo an (lit "factores_favorables") (VList [])))
         (lit "favorable") = Ok lista_favorables
    /\ _generar_recomendaciones
         (normalizar_lista marcadores_numero (campo an (lit "recomendaciones") (VList [])))
       = Ok recs
    /\ html = html_template
                (py_format (campo lead (lit "marca") (VStr (lit "N/A"))))
                (fecha_larga ahora mes)
                (py_format (campo lead (lit "nombre") (VStr (lit "Cliente"))))
                (py_format (campo lead (lit "clase_sugerida") (VStr (lit "N/A"))))
                (py_format (campo an (lit "porcentaje_viabilidad") (VInt 0)))
                color
                (py_format (campo an (lit "nivel_riesgo") (VStr (lit "MEDIO"))))
                texto tabla lista_riesgo lista_favorables recs.
Proof.
  unfold componer_html. intros H.
  destruct (list_index meses _) as [mes|e]; cbn [rbind] in H; [|discriminate].
  destruct (color_riesgo _) as [color|e]; cbn [rbind] in H; [|discriminate].
  destruct (saltos_a_br _) as [texto|e]; cbn [rbind] in H; [|discriminate].
  destruct (_generar_tabla_marcas _) as [tabla|e]; cbn [rbind] in H; [|discriminate].
  destruct (_generar_lista (lit "Factores de Riesgo") _ _) as [lr|e]; cbn [rbind] in H;
    [|discriminate].
  destruct (_generar_lista (lit "Factores Favorables") _ _) as [lf|e]; cbn [rbind] in H;
    [|discriminate].
  destruct (_generar_recomendaciones _) as [recs|e]; cbn [rbind] in H; [|discriminate].
  apply Ok_inj in H. exists mes, color, texto, tabla, lr, lf, recs.
  repeat (split; [reflexivity|]). symmetry. exact H.
Qed.

(** When the page of two dicts cannot be composed, no report is written. *)
Lemma sin_pagina_no_hay_reporte self lead an w :
  (forall html, componer_html (clock (S (w_ticks w))) lead an <> Ok html) ->
  snd (generar_reporte self (VDict lead) (VDict an) w) = Ok VNone
  /\ w_fs (fst (generar_reporte self (VDict lead) (VDict an) w)) = w_fs w.
Proof.
  intros Hno. rewrite generar_reporte_cases.
  destruct (marca_limpia (VDict lead)) as [stem|e]; [|split; reflexivity].
  cbv zeta. rewrite generar_html_dicts. cbn [antes_de_componer w_ticks w_fs w_log].
  destruct (componer_html _ lead an) as [html|e] eqn:E.
  - exfalso. apply (Hno html). reflexivity.
  - split; reflexivity.
Qed.

Lemma campo_no_str items key s0 :
  campo_ok isinstance_str items key = false ->
  isinstance_str (campo items key (VStr s0)) = false.
Proof.
  unfold campo_ok, campo. destruct (assoc key items); [tauto | discriminate].
Qed.

(** X4: the defaults are for absent fields only.  A risk level or an
    analysis text that is present and is not a string (a null, a number)
    makes the whole report fail: [None] is returned and nothing is written. *)
Theorem campo_presente_mal_tipado self lead an w :
  campo_ok isinstance_str an (lit "nivel_riesgo") = false
  \/ campo_ok isinstance_str an (lit "analisis_principal") = false ->
  snd (generar_reporte self (VDict lead) (VDict an) w) = Ok VNone
  /\ w_fs (fst (generar_reporte self (VDict lead) (VDict an) w)) = w_fs w.
Proof.
  intros Hbad. apply sin_pagina_no_hay_reporte. intros html Hhtml.
  apply componer_html_inv in Hhtml
    as (mes & color & texto & tabla & lr & lf & recs & _ & Hc & Ht & _).
  destruct Hbad as [Hbad|Hbad].
  - apply campo_no_str with (s0 := lit "MEDIO") in Hbad.
    destruct (campo an (lit "nivel_riesgo") (VStr (lit "MEDIO"))); discriminate.
  - apply campo_no_str with (s0 := []) in Hbad.
    destruct (campo an (lit "analisis_principal") (VStr [])); discriminate.
Qed.

(** ** Edges of the table *)

(** X5: only the first 15 conflicting marks are read.  Two lists of the same
    length that agree on their first 15 entries give the same table, or the
    same exception, whatever the later entries are. *)
Theorem marcas_tras_la_15 (l l' : list pyval) :
  firstn 15 l = firstn 15 l' -> length l = length l' ->
  _generar_tabla_marcas (VList l) = _generar_tabla_marcas (VList l').
Proof.
  intros Hfirst Hlen. unfold _generar_tabla_marcas.
  assert (Hs : sin_elementos (VList l) = sin_elementos (VList l')).
  { destruct l, l'; try discriminate; reflexivity. }
  rewrite Hs. cbn [py_slice_to py_iter py_len rbind].
  rewrite Hfirst, Hlen. reflexivity.
Qed.

Lemma map_result_raise (A B : Type) (f : A -> result B) xs x :
  In x xs -> (forall y, f x <> Ok y) -> forall ys, map_result f xs <> Ok ys.
Proof.
  intros Hin Hx ys H. apply map_result_Forall2 in H.
  revert ys H. induction xs as [|a r IH]; intros ys H; [contradiction|].
  inversion H as [|a' y r' ys' Ha Hr]; subst.
  destruct Hin as [->|Hin]; [apply (Hx y Ha) | apply (IH Hin _ Hr)].
Qed.

Lemma fila_rechazada i m : marca_rechazada m = true -> forall r, fila i m <> Ok r.
Proof.
  intros Hm r. destruct m as [| | | | |d]; try discriminate.
  cbn [marca_rechazada titular_sin_len] in Hm.
  assert (E : truncar_titular (campo d (lit "titular") (VStr (lit "No especificado")))
              = Raise TypeError).
  { unfold campo.
    destruct (assoc (lit "titular") d) as [[| | | | |]|]; try discriminate Hm;
      reflexivity. }
  unfold fila. rewrite !dict_get_dict. cbn [rbind]. rewrite E. cbn [rbind].
  discriminate.
Qed.

Lemma In_enumerate1_of (A : Type) (xs : list A) x :
  In x xs -> exists i, In (i, x) (enumerate1 xs).
Proof.
  unfold enumerate1. generalize 1 as start.
  induction xs as [|a r IH]; intros start Hin; [contradiction|].
  cbn [length seq combine]. destruct Hin as [->|Hin].
  - exists start. left. reflexivity.
  - destruct (IH (S start) Hin) as [i Hi]. exists i. right. exact Hi.
Qed.

(** X6: an entry among the first 15 that is not a dict, or whose holder is
    present but is a null, a boolean or a number, makes the table raise, and
    with it the report fail: [generar_reporte] returns [None] and writes
    nothing, although an absent holder has a default. *)
Theorem marca_rechazada_aborta self lead an w (l : list pyval) (m : pyval) :
  In m (firstn 15 l) -> marca_rechazada m = true ->
  (exists e, _generar_tabla_marcas (VList l) = Raise e)
  /\ (campo an (lit "marcas_conflictivas") (VList []) = VList l ->
      snd (generar_reporte self (VDict lead) (VDict an) w) = Ok VNone
      /\ w_fs (fst (generar_reporte self (VDict lead) (VDict an) w)) = w_fs w).
Proof.
  intros Hin Hm.
  assert (Hno : forall tabla, _generar_tabla_marcas (VList l) <> Ok tabla).
  { intros tabla. unfold _generar_tabla_marcas.
    assert (Hne : l <> []) by (intros ->; destruct Hin).
    rewrite (sin_elementos_lista Hne). cbn [rbind py_slice_to py_iter py_len].
    rewrite for_each_append.
    destruct (In_enumerate1_of _ _ Hin) as [i Hi].
    destruct (map_result _ _) as [filas|e] eqn:E; cbn [rbind]; [|discriminate].
    exfalso. revert E.
    apply map_result_raise with (x := (i, m)); [exact Hi|].
    intros y. cbn [fst snd]. apply fila_rechazada, Hm. }
  split.
  - destruct (_generar_tabla_marcas (VList l)) as [tabla|e] eqn:E.
    + exfalso. apply (Hno tabla). reflexivity.
    + exists e. reflexivity.
  - intros Hcampo. apply sin_pagina_no_hay_reporte. intros html Hhtml.
    apply componer_html_inv in Hhtml
      as (mes & color & texto & tabla & lr & lf & recs & _ & _ & _ & Htab & _).
    rewrite Hcampo in Htab. apply (Hno tabla Htab).
Qed.

(** X7: every value that Python takes for false (a null, an empty list,
    string or dict, zero, [False]) is an empty field for the three helpers:
    the table becomes the notice and the two kinds of list the empty text.  A
    true value that has no length (a number, [True]) raises [TypeError]. *)
Theorem valores_vacios (v : pyval) :
  (truthy v = false ->
   _generar_tabla_marcas v = Ok sin_marcas
   /\ (forall titulo tipo, _generar_lista titulo v tipo = Ok [])
   /\ _generar_recomendaciones v = Ok [])
  /\ (truthy v = true ->
      match v with
      | VBool _ | VInt _ =>
          _generar_tabla_marcas v = Raise TypeError
          /\ (forall titulo tipo, _generar_lista titulo v tipo = Raise TypeError)
          /\ _generar_recomendaciones v = Raise TypeError
      | _ => sin_elementos v = Ok false
      end).
Proof.
  unfold _generar_tabla_marcas, _generar_lista, _generar_recomendaciones, sin_elementos.
  split; intros Hv.
  - rewrite Hv. cbn [negb rbind]. repeat split.
  - rewrite Hv. cbn [negb].
    destruct v as [|b|z|s|l|d]; try discriminate; cbn [py_len rbind];
      try (repeat split; reflexivity).
    + destruct s; [discriminate | reflexivity].
    + destruct l; [discriminate | reflexivity].
    + destruct d; [discriminate | reflexivity].
Qed.

(** X8: the holder that is shown has 43 characters when the holder has more
    than 40, and the holder's own length otherwise: never more than 43, and
    two characters more than the holder for a holder of 41. *)
Theorem longitud_del_titular (h : pystr) :
  exists shown,
    truncar_titular (VStr h) = Ok (VStr shown)
    /\ length shown = (if Nat.ltb 40 (length h) then 43 else length h)
    /\ length shown <= 43
    /\ (length h = 41 -> length shown = 43).
Proof.
  rewrite truncar_titular_str. eexists. split; [reflexivity|].
  assert (H3 : length (lit "...") = 3) by (vm_compute; reflexivity).
  destruct (Nat.ltb 40 (length h)) eqn:E.
  - apply Nat.ltb_lt in E. rewrite length_app, length_firstn, H3. lia.
  - apply Nat.ltb_ge in E. lia.
Qed.

(** ** Rows in the text of the table *)

Lemma sin_marcado_Forall s : sin_marcado s = true -> Forall (fun c => c <> 60%N) s.
Proof.
  unfold sin_marcado. rewrite forallb_forall. intros H. apply Forall_forall.
  intros c Hc E. specialize (H c Hc). subst c. discriminate.
Qed.

Lemma sin_marcado_app a b :
  sin_marcado a = true -> sin_marcado b = true -> sin_marcado (a ++ b) = true.
Proof. unfold sin_marcado. intros Ha Hb. rewrite forallb_app, Ha, Hb. reflexivity. Qed.

Lemma sin_marcado_firstn n s : sin_marcado s = true -> sin_marcado (firstn n s) = true.
Proof.
  unfold sin_marcado. rewrite !forallb_forall. intros H c Hc. apply H.
  rewrite <- (firstn_skipn n s). apply in_or_app. left. exact Hc.
Qed.

Lemma sin_marcado_digitos s : Forall digito_o_menos s -> sin_marcado s = true.
Proof.
  unfold sin_marcado. intros H. apply forallb_forall. intros c Hc.
  rewrite Forall_forall in H. specialize (H c Hc).
  destruct (N.eqb_spec c 60) as [->|]; [|reflexivity].
  destruct H as [[H1 H2]|H]; [lia | discriminate].
Qed.

Lemma sin_marcado_str_of_nat n : sin_marcado (str_of_nat n) = true.
Proof. apply sin_marcado_digitos, str_of_Z_digits. Qed.

(** A text with no [<] holds no occurrence of a tag, and hides none. *)
Lemma occurrences_campo (p f rest : pystr) :
  hd_error p = Some 60%N -> sin_marcado f = true ->
  occurrences p (f ++ rest) = occurrences p rest.
Proof.
  intros Hp Hf. apply sin_marcado_Forall in Hf.
  destruct p as [|c p']; [discriminate|]. injection Hp as ->.
  induction Hf as [|a r Ha Hr IH]; [reflexivity|].
  cbn [app occurrences starts_with].
  destruct (N.eqb_spec 60 a) as [E|_]; [congruence|]. cbn [andb]. exact IH.
Qed.

Lemma hd_tr : hd_error (lit "<tr>") = Some 60%N.
Proof. vm_compute. reflexivity. Qed.

(** Counting through a literal piece of a template: by evaluation. *)
Ltac occ_lit :=
  match goal with
  | |- context [occurrences (lit ?p) (lit ?a ++ ?x)] =>
      let k := eval vm_compute in (occurrences (lit p) (lit a)) in
      let H := fresh "Hlit" in
      assert (H : forall y, occurrences (lit p) (lit a ++ y)
                            = k + occurrences (lit p) y)
        by (intro; vm_compute; reflexivity);
      rewrite (H x); clear H
  end.

Ltac occ_campo :=
  match goal with
  | |- context [occurrences (lit "<tr>") (?f ++ ?x)] =>
      rewrite (@occurrences_campo (lit "<tr>") f x hd_tr) by assumption
  end.

Lemma fila_template_tr i d e t c s rest :
  sin_marcado i = true -> sin_marcado d = true -> sin_marcado e = true ->
  sin_marcado t = true -> sin_marcado c = true -> sin_marcado s = true ->
  occurrences (lit "<tr>") (fila_template i d e t c s ++ rest)
  = 1 + occurrences (lit "<tr>") rest.
Proof.
  intros Hi Hd He Ht Hc Hs. unfold fila_template. rewrite <- !app_assoc.
  do 6 (occ_lit; occ_campo). occ_lit. reflexivity.
Qed.

Lemma concat_tr filas rest :
  Forall (fun r => forall x, occurrences (lit "<tr>") (r ++ x)
                             = 1 + occurrences (lit "<tr>") x) filas ->
  occurrences (lit "<tr>") (concat filas ++ rest)
  = length filas + occurrences (lit "<tr>") rest.
Proof.
  induction 1 as [|r rs Hr Hrs IH]; [reflexivity|].
  cbn [concat length]. rewrite <- app_assoc, Hr, IH. reflexivity.
Qed.

Lemma fila_sin_marcado_tr i m r :
  marca_sin_marcado m = true -> fila i m = Ok r ->
  forall x, occurrences (lit "<tr>") (r ++ x) = 1 + occurrences (lit "<tr>") x.
Proof.
  unfold marca_sin_marcado. intros Hm Hr x.
  apply andb_true_iff in Hm as [Hok Hcells].
  destruct m as [| | | | |d]; try discriminate.
  cbn [marca_ok] in Hok. destruct (marca_ok_titular _ Hok) as [h Hh].
  rewrite (fila_dict i _ Hh) in Hr. apply Ok_inj in Hr. subst r.
  unfold celdas in Hcells. rewrite Hh in Hcells. cbn [forallb py_format] in Hcells.
  repeat (apply andb_true_iff in Hcells as [? Hcells]).
  apply fila_template_tr; try assumption.
  - apply sin_marcado_str_of_nat.
  - destruct (Nat.ltb 40 (length h)); [|assumption].
    apply sin_marcado_app; [apply sin_marcado_firstn; assumption|].
    vm_compute. reflexivity.
Qed.

Lemma tabla_template_tr cuantas filas :
  sin_marcado cuantas = true ->
  Forall (fun r => forall x, occurrences (lit "<tr>") (r ++ x)
                             = 1 + occurrences (lit "<tr>") x) filas ->
  occurrences (lit "<tr>") (tabla_template cuantas (concat filas)) = 1 + length filas.
Proof.
  intros Hn Hf. unfold tabla_template. rewrite <- ?app_assoc.
  occ_lit. occ_campo. occ_lit. rewrite (concat_tr _ Hf).
  match goal with
  | |- context [occurrences (lit ?p) (lit ?a)] =>
      assert (E : occurrences (lit p) (lit a) = 0) by (vm_compute; reflexivity);
      rewrite E
  end.
  lia.
Qed.

(** X9: when the cells of the first 15 marks hold no [<], the text of the
    table has one [<tr>] for the header and one for each mark rendered: 1 +
    min(15, n) in all. *)
Theorem filas_en_el_texto (l : list pyval) :
  l <> [] -> forallb marca_sin_marcado (firstn 15 l) = true ->
  exists tabla,
    _generar_tabla_marcas (VList l) = Ok tabla
    /\ occurrences (lit "<tr>") tabla = 1 + Nat.min 15 (length l).
Proof.
  intros Hne Hclean.
  assert (Hok : forallb marca_ok (firstn 15 l) = true).
  { rewrite forallb_forall in *. intros m Hm. specialize (Hclean m Hm).
    unfold marca_sin_marcado in Hclean. apply andb_true_iff in Hclean. tauto. }
  destruct (tabla_de_lista Hne Hok) as (filas & Hrows & Htab).
  eexists. split; [exact Htab|].
  rewrite tabla_template_tr.
  - apply (f_equal (Nat.add 1)). exact (filas_length _ Hrows).
  - apply sin_marcado_str_of_nat.
  - clear Htab. rewrite forallb_forall in Hclean.
    assert (Hin : forall im, In im (enumerate1 (firstn 15 l)) ->
                             marca_sin_marcado (snd im) = true).
    { intros [i m] Him. apply Hclean. apply In_enumerate1 with (1 := Him). }
    induction Hrows as [|im r ims rs Hr Hrs IH]; constructor.
    + apply fila_sin_marcado_tr with (i := fst im) (m := snd im);
        [apply Hin; left; reflexivity | exact Hr].
    + apply IH. intros im' Him'. apply Hin. right. exact Him'.
Qed.

(** ** Items in the text of the lists *)

Lemma hd_li : hd_error (lit "<li>") = Some 60%N.
Proof. vm_compute. reflexivity. Qed.

Ltac occ_campo_li :=
  match goal with
  | |- context [occurrences (lit "<li>") (?f ++ ?x)] =>
      rewrite (@occurrences_campo (lit "<li>") f x hd_li) by assumption
  end.

Lemma concat_occ p (items : list pystr) rest :
  Forall (fun r => forall x, occurrences p (r ++ x) = 1 + occurrences p x) items ->
  occurrences p (concat items ++ rest) = length items + occurrences p rest.
Proof.
  induction 1 as [|r rs Hr Hrs IH]; [reflexivity|].
  cbn [concat length]. rewrite <- app_assoc, Hr, IH. reflexivity.
Qed.

Lemma item_template_li color icono item rest :
  sin_marcado color = true -> sin_marcado icono = true -> sin_marcado item = true ->
  occurrences (lit "<li>") (item_template color icono item ++ rest)
  = 1 + occurrences (lit "<li>") rest.
Proof.
  intros Hc Hi Ht. unfold item_template. rewrite <- !app_assoc.
  do 3 (occ_lit; occ_campo_li). occ_lit. reflexivity.
Qed.

Lemma recomendacion_template_li i rec rest :
  sin_marcado i = true -> sin_marcado rec = true ->
  occurrences (lit "<li>") (recomendacion_template i rec ++ rest)
  = 1 + occurrences (lit "<li>") rest.
Proof.
  intros Hi Hr. unfold recomendacion_template. rewrite <- !app_assoc.
  do 2 (occ_lit; occ_campo_li). occ_lit. reflexivity.
Qed.

Lemma occurrences_li_final (a : pystr) :
  forall k, (forall y, occurrences (lit "<li>") (a ++ y) = k + occurrences (lit "<li>") y) ->
  occurrences (lit "<li>") a = k.
Proof.
  intros k H. specialize (H []). rewrite app_nil_r in H. rewrite H.
  cbn [occurrences]. assert (E : starts_with (lit "<li>") [] = false)
    by (vm_compute; reflexivity).
  rewrite E. lia.
Qed.

(** X10: in the text of a bullet list and of the recommendations block
    there is one [<li>] for every element of the list, with no limit on their
    number, when the title and the elements, as they are written, hold no
    [<]. *)
Theorem items_en_el_texto (titulo tipo : pystr) (l : list pyval) :
  l <> [] -> sin_marcado titulo = true ->
  forallb (fun x => sin_marcado (py_format x)) l = true ->
  (exists html,
     _generar_lista titulo (VList l) tipo = Ok html
     /\ occurrences (lit "<li>") html = length l)
  /\ (exists html,
        _generar_recomendaciones (VList l) = Ok html
        /\ occurrences (lit "<li>") html = length l).
Proof.
  intros Hne Htit Hl. rewrite forallb_forall in Hl. split.
  - unfold _generar_lista. rewrite (sin_elementos_lista Hne).
    cbn [rbind py_iter]. eexists. split; [reflexivity|].
    rewrite fold_left_append. cbn [app].
    set (color := if str_eqb tipo (lit "riesgo") then lit "#ef4444" else lit "#10b981").
    set (icono := if str_eqb tipo (lit "riesgo") then lit "⚠" else lit "✓").
    assert (Hcolor : sin_marcado color = true).
    { unfold color. destruct (str_eqb tipo (lit "riesgo")); vm_compute; reflexivity. }
    assert (Hicono : sin_marcado icono = true).
    { unfold icono. destruct (str_eqb tipo (lit "riesgo")); vm_compute; reflexivity. }
    apply occurrences_li_final. intros y.
    unfold lista_template. rewrite <- !app_assoc.
    occ_lit. occ_campo_li. occ_lit. rewrite concat_occ.
    + rewrite length_map. occ_lit. lia.
    + apply Forall_forall. intros r Hr. apply in_map_iff in Hr as (x & <- & Hx).
      intros z. apply item_template_li; auto.
  - unfold _generar_recomendaciones. rewrite (sin_elementos_lista Hne).
    cbn [rbind py_iter]. eexists. split; [reflexivity|].
    rewrite fold_left_append. cbn [app].
    apply occurrences_li_final. intros y.
    unfold recomendaciones_template. rewrite <- !app_assoc.
    occ_lit. rewrite concat_occ.
    + rewrite length_map, length_enumerate1. occ_lit. lia.
    + apply Forall_forall. intros r Hr. apply in_map_iff in Hr as ([i x] & <- & Hx).
      intros z. cbn [fst snd]. apply recomendacion_template_li.
      * apply sin_marcado_str_of_nat.
      * apply Hl. apply In_enumerate1 with (1 := Hx).
Qed.

(** ** Lines and items *)







(** X12: in the analysis text every line break is replaced by [<br>]: none
    is left, the text grows by three characters for each, and a text that has
    none is copied as it is. *)
Theorem saltos_reemplazados (s : pystr) :
  exists t,
    saltos_a_br (VStr s) = Ok t
    /\ ~ In LF t
    /\ length t = length s + 3 * count_occ N.eq_dec s LF
    /\ (~ In LF s -> t = s).
Proof.
  exists (str_replace LF (lit "<br>") s). split; [reflexivity|].
  assert (Hbr : lit "<br>" = [60; 98; 114; 62]%N) by (vm_compute; reflexivity).
  rewrite Hbr. unfold str_replace. repeat split.
  - induction s as [|c r IH]; [intros []|].
    cbn [flat_map]. intros Hin. apply in_app_or in Hin as [Hin|Hin]; [|auto].
    destruct (N.eqb_spec c LF) as [->|Hne].
    + cbn in Hin. unfold LF in Hin. intuition discriminate.
    + destruct Hin as [E|[]]. congruence.
  - induction s as [|c r IH]; [reflexivity|].
    cbn [flat_map count_occ length]. rewrite length_app, IH.
    destruct (N.eqb_spec c LF) as [->|Hne].
    + destruct (N.eq_dec LF LF); [|congruence]. cbn [length]. lia.
    + destruct (N.eq_dec c LF); [congruence|]. cbn [length]. lia.
  - induction s as [|c r IH]; [reflexivity|].
    intros Hno. cbn [flat_map].
    destruct (N.eqb_spec c LF) as [->|Hne].
    + exfalso. apply Hno. left. reflexivity.
    + cbn [app]. f_equal. apply IH. intros Hin. apply Hno. right. exact Hin.
Qed.

(** ** Sanitizing twice *)

Lemma alnum_space_table :
  forallb (fun r => forallb (fun r' => (snd r <? fst r')%N || (snd r' <? fst r)%N)
                            isspace_ranges)
          isalnum_ranges = true.
Proof. vm_compute. reflexivity. Qed.

Lemma isalnum_no_space c : isalnum_char c = true -> isspace_char c = false.
Proof.
  unfold isalnum_char, isspace_char, in_ranges. intros Ha.
  apply existsb_exists in Ha as (r & Hr & Hc).
  destruct (existsb _ isspace_ranges) eqn:Hs; [|reflexivity].
  apply existsb_exists in Hs as (r' & Hr' & Hc').
  pose proof alnum_space_table as T. rewrite forallb_forall in T.
  specialize (T r Hr). rewrite forallb_forall in T. specialize (T r' Hr').
  apply andb_true_iff in Hc as [H1 H2]. apply andb_true_iff in Hc' as [H3 H4].
  apply N.leb_le in H1, H2, H3, H4.
  apply orb_true_iff in T as [T|T]; apply N.ltb_lt in T; lia.
Qed.

Lemma permitido_no_space c : permitido c -> isspace_char c = false /\ c <> 32%N.
Proof.
  intros [H|[->| ->]].
  - split; [apply isalnum_no_space, H|]. intros ->. discriminate.
  - split; [reflexivity | discriminate].
  - split; [reflexivity | discriminate].
Qed.

Lemma lstrip_by_id p s : Forall (fun c => p c = false) s -> lstrip_by p s = s.
Proof. intros H. destruct H as [|c r Hc _]; [reflexivity|]. cbn [lstrip_by]. rewrite Hc. reflexivity. Qed.

Lemma strip_by_id p s : Forall (fun c => p c = false) s -> strip_by p s = s.
Proof.
  intros H. unfold strip_by, rstrip_by. rewrite (@lstrip_by_id p s H).
  rewrite lstrip_by_id by (apply Forall_rev, H). apply rev_involutive.
Qed.

Lemma str_replace_id old new s : Forall (fun c => c <> old) s -> str_replace old new s = s.
Proof.
  unfold str_replace. induction 1 as [|c r Hc Hr IH]; [reflexivity|].
  cbn [flat_map]. destruct (N.eqb_spec c old); [contradiction|].
  rewrite IH. reflexivity.
Qed.

Lemma caracter_permitido_char c :
  permitido c -> caracter_permitido (VStr [c]) = Ok true.
Proof.
  intros H. unfold caracter_permitido. f_equal. cbn [str_isalnum forallb existsb].
  rewrite lit_space, lit_hyphen, lit_underscore.
  destruct H as [H|[->| ->]]; [rewrite H; reflexivity | |];
    rewrite orb_true_iff; right; reflexivity.
Qed.

Lemma join_permitidos_id s :
  Forall permitido s -> join_permitidos (map (fun c => VStr [c]) s) = Ok s.
Proof.
  induction 1 as [|c r Hc Hr IH]; [reflexivity|].
  cbn [map join_permitidos]. rewrite (@caracter_permitido_char c Hc), IH.
  reflexivity.
Qed.

Lemma limpiar_id stem :
  Forall permitido stem -> length stem <= 50 -> limpiar (VStr stem) = Ok stem.
Proof.
  intros Hp Hlen. unfold limpiar. cbn [py_iter rbind].
  rewrite (@join_permitidos_id stem Hp). cbn [rbind]. f_equal.
  unfold str_strip. rewrite strip_by_id.
  - rewrite str_replace_id.
    + apply firstn_all2. exact Hlen.
    + apply Forall_impl with (2 := Hp). intros c Hc. apply permitido_no_space, Hc.
  - apply Forall_impl with (2 := Hp). intros c Hc. apply permitido_no_space, Hc.
Qed.

Lemma str_eqb_refl s : str_eqb s s = true.
Proof. unfold str_eqb. destruct (list_eq_dec N.eq_dec s s); congruence. Qed.

(** X13: sanitizing is idempotent.  The stem of any lead, given back as a
    brand name, is its own stem: nothing more is removed, replaced or cut. *)
Theorem marca_limpia_idempotente (lead : pyval) (stem : pystr) :
  marca_limpia lead = Ok stem ->
  marca_limpia (VDict [(lit "marca", VStr stem)]) = Ok stem.
Proof.
  intros H. unfold marca_limpia in *.
  destruct (dict_get lead _ _) as [marca|e]; cbn [rbind] in H; [|discriminate].
  apply limpiar_permitido in H as [Hp Hlen].
  rewrite dict_get_dict. unfold campo. cbn [assoc]. rewrite str_eqb_refl.
  cbn [rbind]. apply limpiar_id; assumption.
Qed.

(** ** Text that is written as it comes *)

Lemma starts_with_app p x : starts_with p (p ++ x) = true.
Proof.
  induction p as [|c r IH]; [destruct x; reflexivity|].
  cbn [app starts_with]. rewrite N.eqb_refl, IH. reflexivity.
Qed.

Lemma contains_self_app p x : contains p (p ++ x) = true.
Proof.
  destruct (p ++ x) eqn:E; cbn [contains]; rewrite <- E, starts_with_app; reflexivity.
Qed.

Lemma contains_app_r p a b : contains p b = true -> contains p (a ++ b) = true.
Proof.
  intros H. induction a as [|c r IH]; [exact H|].
  cbn [app contains]. rewrite IH. apply orb_true_r.
Qed.

Lemma campo_presente items key v default :
  assoc key items = Some v -> campo items key default = v.
Proof. unfold campo. intros ->. reflexivity. Qed.

(** X14: the page is written without escaping.  A brand name, a client name
    or a class that is a string appears in the page exactly as it was given,
    whatever characters it holds, markup included. *)
Theorem campos_sin_escapar lead an w w' html :
  _generar_html (VDict lead) (VDict an) w = (w', Ok html) ->
  (forall s, assoc (lit "marca") lead = Some (VStr s) -> contains s html = true)
  /\ (forall s, assoc (lit "nombre") lead = Some (VStr s) -> contains s html = true)
  /\ (forall s, assoc (lit "clase_sugerida") lead = Some (VStr s) ->
                contains s html = true).
Proof.
  rewrite generar_html_dicts. intros H.
  apply (f_equal snd) in H. cbn [snd] in H.
  apply componer_html_inv in H
    as (mes & color & texto & tabla & lr & lf & recs & _ & _ & _ & _ & _ & _ & _ & ->).
  unfold html_template.
  repeat split; intros s Hs; rewrite (fun d => @campo_presente lead _ (VStr s) d Hs); cbn [py_format];
    repeat first [apply contains_self_app | apply contains_app_r].
Qed.

End Generador.

(** * Closed instances *)

(** C2, as first stated, fails: a brand name made of disallowed characters
    only leaves an empty stem, not the generic label. *)
Lemma marca_limpia_empty_stem :
  marca_limpia (VDict [(lit "marca", VStr (lit "!!!"))]) = Ok []
  /\ marca_limpia (VDict [(lit "marca", VStr (lit "!!!"))]) <> Ok (lit "marca")
  /\ nombre_archivo [] (lit "20240131_093005") = lit "reporte__20240131_093005.pdf".
Proof.
  split; [vm_compute; reflexivity|]. split; [|vm_compute; reflexivity].
  vm_compute. discriminate.
Qed.

(** C9, as first stated, fails on the file name: [é] is alphanumeric, so the
    sanitizer keeps it and the name does not start with [reporte_Caf_Sol_]. *)
Lemma cafe_sol_file_name :
  marca_limpia lead_cafe_sol = Ok (lit "Café_Sol")
  /\ starts_with (lit "reporte_Caf_Sol_")
       (nombre_archivo (lit "Café_Sol") (lit "20240131_093005")) = false
  /\ nombre_archivo (lit "Café_Sol") (lit "20240131_093005")
     <> lit "reporte_Caf_Sol_20240131_093005.pdf".
Proof.
  split; [vm_compute; reflexivity|]. split; [vm_compute; reflexivity|].
  vm_compute. discriminate.
Qed.

(** ** Instances of the theorems that have hypotheses *)




Lemma colores_de_ejemplo :
  color_riesgo (VStr (lit "bajo")) = Ok BAJO_color
  /\ color_riesgo (VStr (lit "Medio")) = Ok MEDIO_color
  /\ color_riesgo (VStr (lit "ALTO")) = Ok ALTO_color
  /\ color_riesgo (VStr (lit "desconocido")) = Ok color_desconocido.
Proof.
  split; [apply (proj1 (color_por_nivel (lit "bajo"))); vm_compute; reflexivity|].
  split; [apply (proj1 (proj2 (color_por_nivel (lit "Medio")))); vm_compute; reflexivity|].
  split; [apply (proj1 (proj2 (proj2 (color_por_nivel (lit "ALTO")))));
          vm_compute; reflexivity|].
  destruct (color_por_nivel (lit "desconocido")) as (_ & _ & _ & H & _).
  apply H; vm_compute; discriminate.
Defined.

Lemma pagina_sin_secciones :
  analisis_ok [] = true /\ mes_valido (reloj_fijo 0) = true
  /\ exists fecha color texto tabla,
       snd (_generar_html repr_ninguno reloj_fijo (VDict []) (VDict [])
              {| w_ticks := 0; w_fs := tt; w_log := [] |})
       = Ok (html_template (lit "N/A") fecha (lit "Cliente") (lit "N/A") (str_of_Z 0)
               color (lit "MEDIO") texto tabla [] [] []).
Proof.
  repeat (split; [reflexivity|]).
  destruct (proj2 (proj2 (@secciones_vacias_omitidas repr_ninguno unit reloj_fijo))
              [] [] {| w_ticks := 0; w_fs := tt; w_log := [] |} eq_refl eq_refl)
    as (fecha & color & texto & tabla & lr & lf & recs & Hhtml & H1 & H2 & H3).
  rewrite (H1 eq_refl), (H2 eq_refl), (H3 eq_refl) in Hhtml.
  exists fecha, color, texto, tabla. rewrite Hhtml. reflexivity.
Defined.

Lemma cafe_sol_el_31_de_enero :
  mes_valido (reloj_fijo 1) = true
  /\ snd (generar_reporte repr_ninguno render_ok reloj_fijo generador_ejemplo
            lead_cafe_sol analisis_cafe_sol
            {| w_ticks := 0; w_fs := tt; w_log := [] |})
     = Ok (VStr (lit "/tmp/pdfs/reporte_Café_Sol_20240131_093005.pdf")).
Proof.
  split; [reflexivity|].
  destruct (@cafe_sol_report repr_ninguno unit render_ok reloj_fijo generador_ejemplo
              {| w_ticks := 0; w_fs := tt; w_log := [] |} eq_refl)
    as (mes & _ & H).
  cbv zeta in H. unfold render_ok in H |- *. rewrite H. vm_compute. reflexivity.
Defined.


(** The text of the table of 16 marks: 15 body rows and the header row, and
    the count 16 in the caption. *)
Example tabla_de_dieciseis_texto :
  match _generar_tabla_marcas repr_ninguno (VList dieciseis_marcas) with
  | Ok tabla =>
      occurrences (lit "<tr>") tabla = 16
      /\ occurrences (lit "<td><strong>SOL</strong></td>") tabla = 15
      /\ contains (lit "Se han identificado 16 marcas registradas") tabla = true
  | Raise _ => False
  end.
Proof. vm_compute. repeat split; reflexivity. Qed.

(** ** Instances of the further properties *)


Lemma longitud_de_cafe_sol :
  exists stem,
    marca_limpia lead_cafe_sol = Ok stem
    /\ lit "/tmp/pdfs/reporte_Café_Sol_20240131_093005.pdf"
       = os_path_join (pdf_folder generador_ejemplo)
           (nombre_archivo stem (strftime_Ymd_HMS (reloj_fijo 0)))
    /\ length (strftime_Ymd_HMS (reloj_fijo 0)) = 15
    /\ length (nombre_archivo stem (strftime_Ymd_HMS (reloj_fijo 0))) = 28 + length stem
    /\ length stem <= 50.
Proof.
  eapply (@longitud_del_nombre repr_ninguno unit render_ok reloj_fijo
            generador_ejemplo lead_cafe_sol analisis_cafe_sol
            {| w_ticks := 0; w_fs := tt; w_log := [] |} _
            (lit "/tmp/pdfs/reporte_Café_Sol_20240131_093005.pdf"));
    vm_compute; reflexivity.
Defined.

Lemma nivel_de_riesgo_nulo :
  campo_ok isinstance_str [(lit "nivel_riesgo", VNone)] (lit "nivel_riesgo") = false
  /\ snd (generar_reporte repr_ninguno render_ok reloj_fijo generador_ejemplo
            (VDict []) (VDict [(lit "nivel_riesgo", VNone)])
            {| w_ticks := 0; w_fs := tt; w_log := [] |})
     = Ok VNone.
Proof.
  assert (H : campo_ok isinstance_str [(lit "nivel_riesgo", VNone)] (lit "nivel_riesgo")
              = false) by (vm_compute; reflexivity).
  split; [exact H|].
  apply (@campo_presente_mal_tipado repr_ninguno unit render_ok reloj_fijo
           generador_ejemplo [] [(lit "nivel_riesgo", VNone)]
           {| w_ticks := 0; w_fs := tt; w_log := [] |} (or_introl H)).
Defined.

Lemma marca_16_cualquiera :
  _generar_tabla_marcas repr_ninguno (VList dieciseis_marcas)
  = _generar_tabla_marcas repr_ninguno (VList (firstn 15 dieciseis_marcas ++ [VNone])).
Proof.
  apply (@marcas_tras_la_15 repr_ninguno dieciseis_marcas
           (firstn 15 dieciseis_marcas ++ [VNone])); reflexivity.
Defined.

Lemma titular_nulo_aborta :
  In marca_sin_titular (firstn 15 [marca_sin_titular])
  /\ marca_rechazada marca_sin_titular = true
  /\ exists e, _generar_tabla_marcas repr_ninguno (VList [marca_sin_titular]) = Raise e.
Proof.
  assert (H1 : In marca_sin_titular (firstn 15 [marca_sin_titular]))
    by (left; reflexivity).
  assert (H2 : marca_rechazada marca_sin_titular = true) by (vm_compute; reflexivity).
  split; [exact H1|]. split; [exact H2|].
  apply (@marca_rechazada_aborta repr_ninguno unit render_ok reloj_fijo
           generador_ejemplo [] []
           {| w_ticks := 0; w_fs := tt; w_log := [] |} _ _ H1 H2).
Defined.

Lemma nulo_y_numero :
  _generar_tabla_marcas repr_ninguno VNone = Ok sin_marcas
  /\ _generar_recomendaciones repr_ninguno VNone = Ok []
  /\ _generar_tabla_marcas repr_ninguno (VInt 5) = Raise TypeError.
Proof.
  destruct (@valores_vacios repr_ninguno VNone) as [H _].
  destruct (H eq_refl) as (H1 & _ & H3).
  destruct (@valores_vacios repr_ninguno (VInt 5)) as [_ H'].
  destruct (H' eq_refl) as (H4 & _).
  split; [exact H1|]. split; [exact H3 | exact H4].
Defined.

Lemma filas_de_dieciseis :
  dieciseis_marcas <> []
  /\ forallb (marca_sin_marcado repr_ninguno) (firstn 15 dieciseis_marcas) = true
  /\ exists tabla,
       _generar_tabla_marcas repr_ninguno (VList dieciseis_marcas) = Ok tabla
       /\ occurrences (lit "<tr>") tabla = 16.
Proof.
  assert (H1 : dieciseis_marcas <> []) by discriminate.
  assert (H2 : forallb (marca_sin_marcado repr_ninguno) (firstn 15 dieciseis_marcas)
               = true) by (vm_compute; reflexivity).
  split; [exact H1|]. split; [exact H2|].
  exact (@filas_en_el_texto repr_ninguno dieciseis_marcas H1 H2).
Defined.

Lemma dos_items :
  exists html,
    _generar_recomendaciones repr_ninguno (VList [VStr (lit "a"); VStr (lit "b")])
    = Ok html
    /\ occurrences (lit "<li>") html = 2.
Proof.
  assert (H1 : [VStr (lit "a"); VStr (lit "b")] <> []) by discriminate.
  apply (@items_en_el_texto repr_ninguno (lit "Factores de Riesgo") (lit "riesgo")
           [VStr (lit "a"); VStr (lit "b")] H1); vm_compute; reflexivity.
Defined.


Lemma cafe_sol_dos_veces :
  marca_limpia lead_cafe_sol = Ok (lit "Café_Sol")
  /\ marca_limpia (VDict [(lit "marca", VStr (lit "Café_Sol"))]) = Ok (lit "Café_Sol").
Proof.
  assert (H : marca_limpia lead_cafe_sol = Ok (lit "Café_Sol"))
    by (vm_compute; reflexivity).
  split; [exact H | exact (@marca_limpia_idempotente repr_ninguno lead_cafe_sol _ H)].
Defined.

Lemma marcado_en_la_pagina :
  match snd (_generar_html repr_ninguno reloj_fijo (VDict lead_con_marcado) (VDict [])
               {| w_ticks := 0; w_fs := tt; w_log := [] |}) with
  | Ok html => contains (lit "<b>Sol</b>") html = true
  | Raise _ => False
  end.
Proof.
  destruct (_generar_html repr_ninguno reloj_fijo (VDict lead_con_marcado) (VDict [])
              {| w_ticks := 0; w_fs := tt; w_log := [] |}) as [w' [html|e]] eqn:E.
  - cbn [snd].
    apply (proj1 (@campos_sin_escapar repr_ninguno unit reloj_fijo lead_con_marcado []
                    _ _ _ E)).
    vm_compute. reflexivity.
  - vm_compute in E. discriminate.
Defined.
